(** * EduAssist-AI backend: the resource processing pipeline

    A shallow embedding of the upload routes ([app/routes/videos.py],
    [app/routes/resources.py], [app/routes/video_processing.py]), the Celery
    task and the status writer ([app/tasks.py]), the document processor
    ([app/utils/document_processor.py]), the retrieval code
    ([app/rag/generator.py], [app/routes/module_chat.py]) and the chunker.

    Python code runs in a state-and-exception monad over a model of the
    MongoDB collections, the Chroma vector collection and the Celery broker
    queue.  The outside world (file system, transcription and document
    parsing back ends, broker reachability, embedding model) is a record of
    functions.  Route handlers are [async def] functions served by FastAPI, so
    they always run inside a running asyncio event loop; the Celery worker
    does not. *)

From Stdlib Require Import String Ascii List ZArith QArith Lia.
From stdpp Require Import base gmap strings list.
Import ListNotations.
Open Scope string_scope.

(** ** Python strings *)
Module Py.

(** Python's [str.isspace] on ASCII characters: space, \t, \n, \v, \f, \r
    and the separators \x1c to \x1f. *)
Definition is_space (c : ascii) : bool :=
  let n := nat_of_ascii c in
  (n =? 32)%nat || ((9 <=? n)%nat && (n <=? 13)%nat)
  || ((28 <=? n)%nat && (n <=? 31)%nat).

(** [str.split()] with no separator: runs of whitespace separate words,
    leading and trailing whitespace give no empty words.  [cur] is the word
    being read. *)
Fixpoint split_acc (cur : string) (s : string) : list string :=
  match s with
  | EmptyString => if String.eqb cur "" then [] else [cur]
  | String c s' =>
      if is_space c
      then (if String.eqb cur "" then [] else [cur]) ++ split_acc "" s'
      else split_acc (cur ++ String c "") s'
  end.

Definition split (s : string) : list string := split_acc "" s.

(** [" ".join(ws)] *)
Fixpoint join (ws : list string) : string :=
  match ws with
  | [] => ""
  | [w] => w
  | w :: ws' => w ++ " " ++ join ws'
  end.

Fixpoint lstrip (s : string) : string :=
  match s with
  | EmptyString => EmptyString
  | String c s' => if is_space c then lstrip s' else s
  end.

Definition rev_string (s : string) : string :=
  string_of_list_ascii (rev (list_ascii_of_string s)).

(** [str.strip()] *)
Definition strip (s : string) : string :=
  rev_string (lstrip (rev_string (lstrip s))).

(** [sub in s] *)
Fixpoint contains (sub s : string) : bool :=
  String.prefix sub s ||
  match s with
  | EmptyString => false
  | String _ s' => contains sub s'
  end.

(** Truthiness of an optional string ([if content:]): [None] and [""] are
    falsy. *)
Definition truthy (o : option string) : bool :=
  match o with
  | Some s => negb (String.eqb s "")
  | None => false
  end.

End Py.

(** ** MongoDB documents and the database *)

(** An ObjectId, as the number its 12 bytes spell in big-endian order.
    Most routes take ids already parsed; [ObjectId(s)] on a path parameter
    is [object_id] below. *)
Abbreviation oid := N.

(** ** [bson.ObjectId(s)] on a string *)
Module Oid.

(** A hexadecimal digit of [bytes.fromhex]. *)
Definition hex_digit (c : ascii) : option N :=
  let n := N.of_nat (nat_of_ascii c) in
  if (48 <=? n)%N && (n <=? 57)%N then Some (n - 48)%N
  else if (97 <=? n)%N && (n <=? 102)%N then Some (n - 87)%N
  else if (65 <=? n)%N && (n <=? 70)%N then Some (n - 55)%N
  else None.

(** The ASCII whitespace [bytes.fromhex] skips before each pair of digits:
    space, \t, \n, \v, \f and \r. *)
Definition is_ascii_space (c : ascii) : bool :=
  let n := nat_of_ascii c in
  (n =? 32)%nat || ((9 <=? n)%nat && (n <=? 13)%nat).

(** [bytes.fromhex(s)]; [None] is its [ValueError]. *)
Fixpoint fromhex (s : string) : option (list N) :=
  match s with
  | EmptyString => Some []
  | String c s' =>
      if is_ascii_space c then fromhex s'
      else match s' with
           | EmptyString => None
           | String c2 s'' =>
               match hex_digit c, hex_digit c2 with
               | Some h, Some l => option_map (cons (16 * h + l)%N) (fromhex s'')
               | _, _ => None
               end
           end
  end.

(** The bytes of an ObjectId, read big-endian. *)
Definition of_bytes (bs : list N) : N :=
  fold_left (fun acc b => (acc * 256 + b)%N) bs 0%N.

(** [ObjectId(s)] for a [str]: [None] is [InvalidId] (not 24 characters,
    or not hexadecimal); [Some None] is an ObjectId whose [bytes.fromhex]
    gave fewer than 12 bytes (whitespace inside the string), which is the
    [_id] of no document; [Some (Some i)] is the ObjectId [i]. *)
Definition object_id (s : string) : option (option oid) :=
  if negb (String.length s =? 24)%nat then None
  else match fromhex s with
       | None => None
       | Some bs => if (List.length bs =? 12)%nat then Some (Some (of_bytes bs)) else Some None
       end.

Definition hex_char (n : N) : ascii :=
  ascii_of_N (if (n <? 10)%N then 48 + n else 87 + n)%N.

(** [str(oid)]: 24 lowercase hexadecimal digits. *)
Fixpoint hex_digits (k : nat) (n : N) (acc : string) : string :=
  match k with
  | O => acc
  | S k' => hex_digits k' (n / 16)%N (String (hex_char (n mod 16)%N) acc)
  end.

Definition to_str (i : oid) : string := hex_digits 24 i "".

(** [repr(s)] of a Python [str] of ASCII characters: single quotes, or
    double quotes when [s] has a single quote and no double quote;
    backslash, the quote, \t, \n, \r and the other control characters
    escaped. *)
Definition hex2 (n : N) : string :=
  String (hex_char (n / 16)%N) (String (hex_char (n mod 16)%N) "").

Fixpoint repr_body (q : ascii) (s : string) : string :=
  match s with
  | EmptyString => ""
  | String c s' =>
      let n := N.of_nat (nat_of_ascii c) in
      (if Ascii.eqb c q then String "\"%char (String c "")
       else if (n =? 92)%N then "\\"
       else if (n =? 9)%N then "\t"
       else if (n =? 10)%N then "\n"
       else if (n =? 13)%N then "\r"
       else if (n <? 32)%N || (n =? 127)%N then "\x" ++ hex2 n
       else String c "") ++ repr_body q s'
  end.

Fixpoint has_char (c : ascii) (s : string) : bool :=
  match s with
  | EmptyString => false
  | String c' s' => Ascii.eqb c c' || has_char c s'
  end.

Definition py_repr (s : string) : string :=
  let dq := ascii_of_nat 34 in
  let q := if has_char "'"%char s && negb (has_char dq s) then dq else "'"%char in
  String q (repr_body q s ++ String q "").

End Oid.

(** Field values of the flat resource documents.  Timestamps from
    [datetime.utcnow()] are all [VNow]. *)
Inductive Val :=
| VStr (s : string)
| VInt (z : Z)
| VBool (b : bool)
| VId (i : oid)
| VNull
| VNow.

(** A document is a map from field names to values. *)
Abbreviation Doc := (gmap string Val).

(** One transcript segment; [start]/[end] are the float seconds of the code,
    which are integral everywhere they are written. *)
Record Segment := mkSegment {
  seg_start : Z;
  seg_end : Z;
  seg_text : string
}.

(** A document of the [transcripts] collection.  [tr_key] is the name of
    the owner field, ["video_id"] or ["resource_id"]. *)
Record Transcript := mkTranscript {
  tr_id : oid;
  tr_key : string;
  tr_owner : oid;
  tr_segments : list Segment;
  tr_word_count : Z;
  tr_language : string;
  tr_confidence : Q
}.

(** Metadata of a Chroma entry written by [add_video_transcript_to_rag]. *)
Record Meta := mkMeta {
  md_source : string;
  md_video_id : option oid;
  md_start : Z;
  md_end : Z;
  md_segment_index : nat
}.

(** An entry of the Chroma collection. *)
Record Entry := mkEntry {
  en_id : N;
  en_embedding : list Z;
  en_document : string;
  en_metadata : Meta
}.

(** A write command issued by the application to the [videos] or
    [resources] collection: [update_one({"_id": id}, {"$set": set,
    "$unset": unset})]. *)
Record Update := mkUpdate {
  up_coll : string;
  up_id : oid;
  up_set : list (string * Val);
  up_unset : list string
}.

Record DB := mkDB {
  videos : gmap oid Doc;
  resources : gmap oid Doc;
  transcripts : list Transcript;
  summaries : list (string * oid);
  quizzes : list (string * oid);
  store : list Entry;            (** the Chroma collection *)
  queue : list (oid * string);   (** Celery messages in the broker *)
  writes : list Update;          (** update commands issued, oldest first *)
  next_id : N                    (** fresh ObjectIds and uuid4s *)
}.

(** ** The outside world *)
Record World := mkWorld {
  file_exists : string -> bool;          (** [os.path.exists] *)
  file_text : string -> option string;   (** [open(p).read()], [None] if it raises *)
  pdf_text : string -> option string;    (** [DocumentProcessor.read_pdf] *)
  docx_text : string -> option string;   (** [DocumentProcessor.read_docx] *)
  duration_of : string -> option Q;      (** [AudioProcessor.get_video_duration] *)
  audio_converted : string -> bool;      (** [convert_video_to_audio] gives an audio path *)
  transcribe : string -> option string;  (** [transcribe_audio] on the converted audio *)
  broker_up : bool;                      (** Redis reachable *)
  embed : string -> list Z;              (** [Embeddings.get_embedding] *)
  embed_ok : bool                        (** the embedding model loads *)
}.

(** ** The chunker *)
Module Chunker.

(** Modelled from the spec: [app/rag/chunking.py] ([TextChunker], imported
    by [app/rag/generator.py]) is not part of the sources.  Following the
    spec's contract [chunk(text, maxWords, overlapWords)]: the text is split
    on whitespace-delimited word boundaries; consecutive windows of at most
    [maxw] words start [maxw - ov] words apart (at least one word apart), so
    that consecutive chunks share [ov] words; the last window may be
    shorter; chunks are the windows' words joined by single spaces. *)
Fixpoint windows (fuel : nat) (ws : list string) (maxw step : nat)
  : list (list string) :=
  match fuel with
  | O => []
  | S fuel' =>
      match ws with
      | [] => []
      | _ =>
          firstn maxw ws ::
          (if Nat.leb (List.length ws) maxw then []
           else windows fuel' (skipn step ws) maxw step)
      end
  end.

Definition step (maxw ov : nat) : nat := Nat.max 1 (maxw - ov).

Definition chunk_words (ws : list string) (maxw ov : nat) : list (list string) :=
  windows (List.length ws) ws maxw (step maxw ov).

Definition chunk (text : string) (maxw ov : nat) : list string :=
  map Py.join (chunk_words (Py.split text) maxw ov).

End Chunker.

(** ** The Python execution monad *)

(** The exceptions the modelled code raises. *)
Inductive exn :=
| Exception (msg : string)
| RuntimeError (msg : string)
| HTTPException (code : Z) (detail : string).

(** [str(e)] *)
Definition exn_str (e : exn) : string :=
  match e with
  | Exception m | RuntimeError m => m
  | HTTPException _ d => d
  end.

Inductive result (A : Type) :=
| Ok (a : A)
| Err (e : exn).
Arguments Ok {A} a.
Arguments Err {A} e.

(** The execution context: the world, and whether an asyncio event loop is
    already running in the current thread. *)
Record Ctx := mkCtx {
  world : World;
  in_loop : bool
}.

Definition M (A : Type) : Type := Ctx -> DB -> result A * DB.

Definition ret {A} (a : A) : M A := fun _ db => (Ok a, db).

Definition bind {A B} (m : M A) (f : A -> M B) : M B :=
  fun c db =>
    match m c db with
    | (Ok a, db') => f a c db'
    | (Err e, db') => (Err e, db')
    end.

Notation "x <- m ;; k" := (bind m (fun x => k))
  (at level 95, m at next level, right associativity).
Notation "m ;;; k" := (bind m (fun _ => k))
  (at level 95, right associativity).

Definition raise {A} (e : exn) : M A := fun _ db => (Err e, db).

(** [try: m except Exception as e: h(e)]; every modelled exception,
    [HTTPException] included, derives from [Exception]. *)
Definition try_except {A} (m : M A) (h : exn -> M A) : M A :=
  fun c db =>
    match m c db with
    | (Ok a, db') => (Ok a, db')
    | (Err e, db') => h e c db'
    end.

Definition ask_world : M World := fun c db => (Ok (world c), db).
Definition get_db : M DB := fun _ db => (Ok db, db).
Definition put_db (db' : DB) : M unit := fun _ _ => (Ok tt, db').

(** [loop = asyncio.new_event_loop(); asyncio.set_event_loop(loop);
    loop.run_until_complete(m); loop.close()].  [run_until_complete]
    raises before it starts [m] when another loop is running in the
    thread (asyncio's [BaseEventLoop._check_running]). *)
Definition new_loop_run {A} (m : M A) : M A :=
  fun c db =>
    if in_loop c
    then (Err (RuntimeError "Cannot run the event loop while another loop is running"), db)
    else m c db.

(** Route handlers run on FastAPI's event loop; Celery tasks on a plain
    worker thread. *)
Definition run_route {A} (m : M A) (w : World) (db : DB) : result A * DB :=
  m (mkCtx w true) db.
Definition run_task {A} (m : M A) (w : World) (db : DB) : result A * DB :=
  m (mkCtx w false) db.

(** *** Database primitives *)

Definition fresh_id : M N :=
  fun _ db =>
    (Ok (next_id db),
     mkDB (videos db) (resources db) (transcripts db) (summaries db)
          (quizzes db) (store db) (queue db) (writes db) (next_id db + 1)).

Definition set_videos (v : gmap oid Doc) (db : DB) : DB :=
  mkDB v (resources db) (transcripts db) (summaries db) (quizzes db)
       (store db) (queue db) (writes db) (next_id db).
Definition set_resources (r : gmap oid Doc) (db : DB) : DB :=
  mkDB (videos db) r (transcripts db) (summaries db) (quizzes db)
       (store db) (queue db) (writes db) (next_id db).
Definition set_transcripts (t : list Transcript) (db : DB) : DB :=
  mkDB (videos db) (resources db) t (summaries db) (quizzes db)
       (store db) (queue db) (writes db) (next_id db).
Definition set_summaries (s : list (string * oid)) (db : DB) : DB :=
  mkDB (videos db) (resources db) (transcripts db) s (quizzes db)
       (store db) (queue db) (writes db) (next_id db).
Definition set_quizzes (q : list (string * oid)) (db : DB) : DB :=
  mkDB (videos db) (resources db) (transcripts db) (summaries db) q
       (store db) (queue db) (writes db) (next_id db).
Definition set_store (s : list Entry) (db : DB) : DB :=
  mkDB (videos db) (resources db) (transcripts db) (summaries db)
       (quizzes db) s (queue db) (writes db) (next_id db).
Definition set_queue (q : list (oid * string)) (db : DB) : DB :=
  mkDB (videos db) (resources db) (transcripts db) (summaries db)
       (quizzes db) (store db) q (writes db) (next_id db).
Definition set_writes (w : list Update) (db : DB) : DB :=
  mkDB (videos db) (resources db) (transcripts db) (summaries db)
       (quizzes db) (store db) (queue db) w (next_id db).

Definition coll (name : string) (db : DB) : gmap oid Doc :=
  if String.eqb name "videos" then videos db else resources db.

Definition set_coll (name : string) (m : gmap oid Doc) (db : DB) : DB :=
  if String.eqb name "videos" then set_videos m db else set_resources m db.

(** [$set] then [$unset] on one document. *)
Definition apply_update (d : Doc) (sets : list (string * Val))
    (unsets : list string) : Doc :=
  foldl (fun d k => delete k d)
        (foldl (fun d kv => <[kv.1 := kv.2]> d) d sets) unsets.

(** [db[name].update_one({"_id": id}, {"$set": sets, "$unset": unsets})]:
    the command is issued (and logged); a document is changed only if one
    has that id. *)
Definition update_one (name : string) (id : oid) (sets : list (string * Val))
    (unsets : list string) : M unit :=
  db <- get_db ;;
  let db1 := set_writes (writes db ++ [mkUpdate name id sets unsets]) db in
  match coll name db1 !! id with
  | Some d => put_db (set_coll name (<[id := apply_update d sets unsets]> (coll name db1)) db1)
  | None => put_db db1
  end.

(** [db[name].insert_one(doc)]; returns [inserted_id]. *)
Definition insert_one (name : string) (d : Doc) : M oid :=
  id <- fresh_id ;;
  db <- get_db ;;
  put_db (set_coll name (<[id := <["_id" := VId id]> d]> (coll name db)) db) ;;;
  ret id.

Definition find_one (name : string) (id : oid) : M (option Doc) :=
  db <- get_db ;; ret (coll name db !! id).

(** [db["transcripts"].insert_one(...)]: the fields other than [_id]. *)
Definition insert_transcript (key : string) (owner : oid) (segs : list Segment)
    (wc : Z) (lang : string) (conf : Q) : M oid :=
  id <- fresh_id ;;
  db <- get_db ;;
  put_db (set_transcripts (transcripts db ++ [mkTranscript id key owner segs wc lang conf]) db) ;;;
  ret id.

(** ** [app/tasks.py] *)

(** [update_video_status(video_id, status, progress, current_step,
    estimated_time)]: always writes to the [videos] collection. *)
Definition update_video_status (video_id : oid) (status : string) (progress : Z)
    (current_step : string) (estimated_time : Z) : M unit :=
  if String.eqb status "PROCESSING"
  then update_one "videos" video_id
         [("status", VStr status); ("progress", VInt progress);
          ("current_step", VStr current_step);
          ("estimated_time_remaining", VInt estimated_time)] []
  else update_one "videos" video_id
         [("status", VStr status)]
         ["progress"; "current_step"; "estimated_time_remaining"].

(** [process_video_task.delay(video_id, video_reference)]: the message is
    published to Redis, or kombu raises when the broker refuses the
    connection. *)
Definition delay (video_id : oid) (video_reference : string) : M unit :=
  w <- ask_world ;;
  if broker_up w
  then db <- get_db ;; put_db (set_queue (queue db ++ [(video_id, video_reference)]) db)
  else raise (Exception "Error 111 connecting to localhost:6379. Connection refused.").

(** The pydantic [VideoContent] model defined inside the task and the sync
    routes ([image_frames] is always empty and not kept). *)
Record VideoContent := mkVideoContent {
  transcript_segments : list Segment;
  word_count : Z;
  language : string;
  confidence : Q;
  video_duration : Z
}.

(** The Python value [AudioProcessor.process_video_for_transcription]
    returns: annotated [Optional[str]], but the duration (a float) when the
    audio conversion fails. *)
Inductive Transcription :=
| TNone
| TStr (s : string)
| TFloat (d : Q).

(** [AudioProcessor.process_video_for_transcription]: [None] when the file
    does not exist; when the conversion fails, [duration if duration else
    None]; otherwise the text, or [None] when it is missing or empty. *)
Definition process_video_for_transcription (video_path : string) : M Transcription :=
  w <- ask_world ;;
  if negb (file_exists w video_path) then ret TNone
  else
    let duration := duration_of w video_path in
    if negb (audio_converted w video_path)
    then ret (match duration with
              | Some d => if Qeq_bool d 0 then TNone else TFloat d
              | None => TNone
              end)
    else ret (if Py.truthy (transcribe w video_path)
              then TStr (default "" (transcribe w video_path))
              else TNone).

(** The placeholder of [else:] when the transcription is falsy. *)
Definition failed_content : VideoContent :=
  mkVideoContent [mkSegment 0 1 "Video processing failed"] 3 "en" 0 30.

(** The two [VideoContent] values built from a local transcription; a
    float makes [transcription[:500]] raise a [TypeError]. *)
Definition local_content (transcription : Transcription) : M VideoContent :=
  match transcription with
  | TStr t =>
      if negb (String.eqb t "")
      then ret (mkVideoContent [mkSegment 0 30 (String.substring 0 500 t)]
                  (Z.of_nat (List.length (Py.split t))) "en" (9 # 10) 30)
      else ret failed_content
  | TFloat d =>
      if Qeq_bool d 0 then ret failed_content
      else raise (Exception "'float' object is not subscriptable")
  | TNone => ret failed_content
  end.

(** ** [app/rag/generator.py]: indexing *)

(** [RAGGenerator()] defaults. *)
Definition chunk_size : nat := 512.
Definition chunk_overlap : nat := 50.

(** [self.collection.add(...)] with a fresh [uuid4] id. *)
Definition collection_add (emb : list Z) (doc : string) (md : Meta) : M unit :=
  id <- fresh_id ;;
  db <- get_db ;;
  put_db (set_store (store db ++ [mkEntry id emb doc md]) db).

(** The inner loop [for i, chunk in enumerate(chunks)]. *)
Fixpoint add_chunks (video_id : oid) (seg : Segment) (i : nat) (chunks : list string)
  : M unit :=
  match chunks with
  | [] => ret tt
  | ch :: rest =>
      w <- ask_world ;;
      collection_add (embed w ch) ch
        (mkMeta "video_transcript" (Some video_id) (seg_start seg) (seg_end seg) i) ;;;
      add_chunks video_id seg (S i) rest
  end.

(** [RAGGenerator.add_video_transcript_to_rag]. *)
Fixpoint add_video_transcript_to_rag (video_id : oid) (segs : list Segment) : M unit :=
  match segs with
  | [] => ret tt
  | seg :: rest =>
      (if String.eqb (Py.strip (seg_text seg)) ""
       then ret tt
       else add_chunks video_id seg 0 (Chunker.chunk (seg_text seg) chunk_size chunk_overlap)) ;;;
      add_video_transcript_to_rag video_id rest
  end.

(** [add_video_content_to_rag]: builds a fresh [RAGGenerator] (loading the
    embedding model) and indexes the segments. *)
Definition add_video_content_to_rag (video_id transcript_id : oid) (segs : list Segment)
  : M unit :=
  w <- ask_world ;;
  if embed_ok w
  then add_video_transcript_to_rag video_id segs
  else raise (Exception "embedding model could not be loaded").

(** ** [process_video_task] *)

Definition val_truthy (v : Val) : bool :=
  match v with
  | VStr s => negb (String.eqb s "")
  | VInt z => negb (Z.eqb z 0)
  | VBool b => b
  | VNull => false
  | _ => true
  end.

Definition val_is (v : Val) (s : string) : bool :=
  match v with VStr t => String.eqb t s | _ => false end.

Definition val_string (v : Val) : string :=
  match v with VStr t => t | _ => "" end.

(** [async_db_operation] of the task. *)
Definition async_db_operation (video_id : oid) : M (Doc * Val * Val) :=
  o <- find_one "videos" video_id ;;
  match o with
  | None => raise (Exception "Video document not found")
  | Some d =>
      let storage_type := match d !! "storage_type" with Some v => v | None => VStr "drive" end in
      match d !! "storage_url" with
      | Some url => ret (d, storage_type, url)
      | None => raise (Exception "'storage_url'")
      end
  end.

Inductive TaskResult :=
| TaskSuccess (video_id transcript_id : oid) (duration word_count : Z)
| TaskFailed (video_id : oid) (error : string).

Definition drive_task_content : VideoContent :=
  mkVideoContent [mkSegment 0 30 "Drive file processing requires additional implementation"]
    9 "en" 0 30.

Definition process_video_task (video_id : oid) (video_reference : string) : M TaskResult :=
  try_except
    (r <- new_loop_run (async_db_operation video_id) ;;
     let '(video_doc, storage_type, storage_url) := r in
     new_loop_run (update_video_status video_id "PROCESSING" 0 "Starting video processing" 300) ;;;
     video_content <-
       (if val_is storage_type "drive"
        then ret drive_task_content
        else if negb (val_truthy storage_url)
        then raise (Exception "No file path provided for local storage type")
        else transcription <- process_video_for_transcription (val_string storage_url) ;;
             local_content transcription) ;;
     new_loop_run (update_video_status video_id "PROCESSING" 30 "Extracting transcript" 240) ;;;
     transcript_id <- new_loop_run
       (insert_transcript "video_id" video_id (transcript_segments video_content)
          (word_count video_content) (language video_content) (confidence video_content)) ;;
     new_loop_run
       (update_video_status video_id "PROCESSING" 60 "Indexing content for search" 180 ;;;
        add_video_content_to_rag video_id transcript_id (transcript_segments video_content)) ;;;
     new_loop_run (update_video_status video_id "PROCESSING" 80 "Processing visual content" 120) ;;;
     new_loop_run
       (update_video_status video_id "COMPLETE" 100 "Processing completed" 0 ;;;
        update_one "videos" video_id
          [("status", VStr "COMPLETE"); ("duration_seconds", VInt (video_duration video_content));
           ("processed_at", VNow)] []) ;;;
     ret (TaskSuccess video_id transcript_id (video_duration video_content) (word_count video_content)))
    (fun e =>
       try_except
         (new_loop_run (update_video_status video_id "FAILED" 100 (exn_str e) 0))
         (fun _ => ret tt) ;;;
       ret (TaskFailed video_id (exn_str e))).

(** ** [app/routes/videos.py] *)

(** [VideoUploadResponse] ([statusUrl] is [/api/v1/videos/{videoId}/status]). *)
Record VideoUploadResponse := mkVideoUploadResponse {
  videoId : oid;
  vr_title : string;
  vr_status : string;
  estimatedProcessingTime : Z
}.

Definition opt_id (o : option oid) : Val :=
  match o with Some i => VId i | None => VNull end.

(** The [video_doc] stored by [upload_video] (step 4). *)
Definition new_video_doc (course : oid) (module : option oid) (title storage_url storage_type status : string) : Doc :=
  list_to_map
    [("course_id", VId course); ("module_id", opt_id module); ("title", VStr title);
     ("type", VStr "video"); ("storage_url", VStr storage_url);
     ("storage_type", VStr storage_type); ("status", VStr status);
     ("published", VBool false); ("duration_seconds", VInt 0);
     ("uploaded_at", VNow); ("processed_at", VNull)].

(** Step 5 of [upload_video] and of the video branch of [upload_resource]:
    queue the task, and on any exception run the fallback.  [name] is the
    collection of the record. *)
Definition dispatch_video_task (name : string) (id : oid) (storage_url storage_type : string)
  : M unit :=
  try_except
    ((if String.eqb storage_type "drive" then delay id storage_url
      else if String.eqb storage_type "local" then delay id storage_url
      else ret tt))
    (fun e =>
       let msg := "Processing service unavailable: " ++ exn_str e in
       new_loop_run (update_video_status id "FAILED" 100 msg 0) ;;;
       update_one name id [("status", VStr "FAILED"); ("error_message", VStr msg)] []).

(** [upload_video] from step 4 on; steps 1 to 3 (authorisation, file type
    and size checks, saving the file locally or to Google Drive) produce
    [storage_url] and [storage_type] (["drive"] or ["local"]). *)
Definition upload_video (course : oid) (module : option oid) (title storage_url storage_type : string)
  : M VideoUploadResponse :=
  video_id <- insert_one "videos" (new_video_doc course module title storage_url storage_type "PENDING") ;;
  dispatch_video_task "videos" video_id storage_url storage_type ;;;
  ret (mkVideoUploadResponse video_id title "PENDING" 300).

Definition drive_sync_content : VideoContent :=
  mkVideoContent
    [mkSegment 0 30 "Transcription not available for Google Drive files in this mock implementation"]
    0 "en" 0 30.

(** Step 5 of [upload_video_sync], also the video branch of
    [upload_resource_sync]: the two copies differ only in the collection
    [name] of the record and the owner field [key] of the transcript
    (["video_id"] / ["resource_id"]).  Statuses go through
    [update_video_status], which writes to [videos] in both. *)
Definition video_sync_body (name key : string) (id : oid) (storage_url storage_type : string)
  : M unit :=
  update_video_status id "PROCESSING" 0 "Starting video processing" 300 ;;;
  video_content <-
    (if String.eqb storage_type "drive"
     then ret drive_sync_content
     else if String.eqb storage_url ""
     then raise (Exception "No file path provided for local storage type")
     else w <- ask_world ;;
          if negb (file_exists w storage_url)
          then raise (Exception ("Video file does not exist at path: " ++ storage_url))
          else transcription <- process_video_for_transcription storage_url ;;
               local_content transcription) ;;
  update_video_status id "PROCESSING" 30 "Extracting transcript" 240 ;;;
  transcript_id <- insert_transcript key id (transcript_segments video_content)
      (word_count video_content) (language video_content) (confidence video_content) ;;
  update_video_status id "PROCESSING" 60 "Indexing content for search" 180 ;;;
  add_video_content_to_rag id transcript_id (transcript_segments video_content) ;;;
  update_video_status id "PROCESSING" 80 "Processing visual content" 120 ;;;
  update_video_status id "COMPLETE" 100 "Processing completed" 0 ;;;
  update_one name id
    [("status", VStr "COMPLETE"); ("duration_seconds", VInt (video_duration video_content));
     ("processed_at", VNow)] [].

(** The [except] block of the sync routes. *)
Definition sync_failure {A} (name prefix : string) (id : oid) (e : exn) : M A :=
  try_except
    (update_video_status id "FAILED" 100 (exn_str e) 0 ;;;
     update_one name id [("error_message", VStr (exn_str e))] [])
    (fun _ => ret tt) ;;;
  raise (HTTPException 500 (prefix ++ exn_str e)).

Definition upload_video_sync (course : oid) (module : option oid) (title storage_url storage_type : string)
  : M VideoUploadResponse :=
  video_id <- insert_one "videos" (new_video_doc course module title storage_url storage_type "PROCESSING") ;;
  try_except
    (video_sync_body "videos" "video_id" video_id storage_url storage_type ;;;
     ret (mkVideoUploadResponse video_id title "COMPLETE" 0))
    (sync_failure "videos" "Video processing failed: " video_id).

(** ** [app/utils/document_processor.py] *)

(** [DocumentProcessor.read_txt] *)
Definition read_txt (file_path : string) : M (option string) :=
  w <- ask_world ;; ret (option_map Py.strip (file_text w file_path)).

(** [DocumentProcessor.process_document] *)
Definition process_document (file_path file_type : string) : M (option string) :=
  w <- ask_world ;;
  if String.eqb file_type "pdf" then ret (pdf_text w file_path)
  else if String.eqb file_type "docx" then ret (docx_text w file_path)
  else if String.eqb file_type "txt" then read_txt file_path
  else ret None.

(** [DocumentProcessor.save_document_content] *)
Definition save_document_content (content : string) (resource_id : oid) : M (option string) :=
  try_except
    (_ <- insert_transcript "resource_id" resource_id [mkSegment 0 0 content]
            (if String.eqb content "" then 0 else Z.of_nat (List.length (Py.split content)))
            "en" 1 ;;
     ret (Some "Document content saved successfully"))
    (fun _ => ret None).

(** ** [app/routes/resources.py] *)

Record ResourceUploadResponse := mkResourceUploadResponse {
  resourceId : oid;
  rr_title : string;
  rr_type : string;
  rr_status : string;
  rr_estimatedProcessingTime : Z
}.

Definition resource_type_of (content_type : string) : string :=
  if String.prefix "video/" content_type then "video"
  else if String.eqb content_type "application/pdf" then "pdf"
  else if String.eqb content_type "application/msword"
       || String.eqb content_type "application/vnd.openxmlformats-officedocument.wordprocessingml.document"
  then "docx"
  else if String.eqb content_type "text/plain" then "txt"
  else "unknown".

Definition is_document_type (t : string) : bool :=
  String.eqb t "pdf" || String.eqb t "docx" || String.eqb t "txt".

Definition new_resource_doc (course : oid) (module : option oid)
    (title storage_url storage_type resource_type status : string) (processed_at : Val) : Doc :=
  list_to_map
    [("course_id", VId course); ("module_id", opt_id module); ("title", VStr title);
     ("type", VStr resource_type); ("storage_url", VStr storage_url);
     ("storage_type", VStr storage_type); ("status", VStr status);
     ("published", VBool false); ("duration_seconds", VInt 0);
     ("uploaded_at", VNow); ("processed_at", processed_at)].

(** [upload_resource] from step 4 on (see [upload_video]). *)
Definition upload_resource (course : oid) (module : option oid)
    (title content_type storage_url storage_type : string) : M ResourceUploadResponse :=
  let resource_type := resource_type_of content_type in
  let is_doc := is_document_type resource_type in
  let status := if is_doc then "PROCESSING" else "PENDING" in
  resource_id <- insert_one "resources"
    (new_resource_doc course module title storage_url storage_type resource_type status
       (if is_doc then VNow else VNull)) ;;
  (if is_doc
   then try_except
          (content <- process_document storage_url resource_type ;;
           if Py.truthy content
           then save_document_content (default "" content) resource_id ;;; ret tt
           else ret tt)
          (fun _ => ret tt) ;;;
        update_one "resources" resource_id
          [("status", VStr "COMPLETE"); ("processed_at", VNow); ("duration_seconds", VInt 0)] []
   else if String.eqb resource_type "video"
   then dispatch_video_task "resources" resource_id storage_url storage_type
   else ret tt) ;;;
  ret (mkResourceUploadResponse resource_id title resource_type status
         (if String.eqb resource_type "video" then 300 else 0)).

(** [upload_resource_sync] from step 4 on. *)
Definition upload_resource_sync (course : oid) (module : option oid)
    (title content_type storage_url storage_type : string) : M ResourceUploadResponse :=
  let resource_type := resource_type_of content_type in
  resource_id <- insert_one "resources"
    (new_resource_doc course module title storage_url storage_type resource_type "PROCESSING" VNull) ;;
  try_except
    ((if is_document_type resource_type
      then content <- process_document storage_url resource_type ;;
           (if Py.truthy content
            then save_document_content (default "" content) resource_id ;;; ret tt
            else ret tt) ;;;
           update_one "resources" resource_id
             [("status", VStr "COMPLETE"); ("processed_at", VNow)] []
      else if String.eqb resource_type "video"
      then video_sync_body "resources" "resource_id" resource_id storage_url storage_type
      else ret tt) ;;;
     ret (mkResourceUploadResponse resource_id title resource_type "COMPLETE" 0))
    (sync_failure "resources" "Resource processing failed: " resource_id).

(** *** Deletion *)

Definition delete_one (name : string) (id : oid) : M nat :=
  db <- get_db ;;
  match coll name db !! id with
  | Some _ => put_db (set_coll name (delete id (coll name db)) db) ;;; ret 1%nat
  | None => ret 0%nat
  end.

(** [db["transcripts"].delete_many({key: ObjectId(owner)})] *)
Definition delete_transcripts (key : string) (owner : oid) : M unit :=
  db <- get_db ;;
  put_db (set_transcripts
            (List.filter (fun t => negb (String.eqb (tr_key t) key && N.eqb (tr_owner t) owner))
                    (transcripts db)) db).

Definition owned_by (key : string) (owner : oid) (r : string * oid) : bool :=
  String.eqb r.1 key && N.eqb r.2 owner.

Definition delete_summaries (key : string) (owner : oid) : M unit :=
  db <- get_db ;;
  put_db (set_summaries (List.filter (fun r => negb (owned_by key owner r)) (summaries db)) db).

Definition delete_quizzes (key : string) (owner : oid) : M unit :=
  db <- get_db ;;
  put_db (set_quizzes (List.filter (fun r => negb (owned_by key owner r)) (quizzes db)) db).

(** ** Retrieval: [RAGGenerator.search_video_content] and the module chat *)

(** Chroma's default distance: squared L2. *)
Fixpoint l2 (a b : list Z) : Z :=
  match a, b with
  | x :: a', y :: b' => (x - y) * (x - y) + l2 a' b'
  | _, _ => 0
  end.

(** Entries in increasing distance to [q] (ties keep insertion order). *)
Fixpoint insert_by (q : list Z) (e : Entry) (l : list Entry) : list Entry :=
  match l with
  | [] => [e]
  | e' :: l' =>
      if Z.leb (l2 q (en_embedding e)) (l2 q (en_embedding e'))
      then e :: l
      else e' :: insert_by q e l'
  end.

Definition rank_by (q : list Z) (l : list Entry) : list Entry :=
  fold_right (insert_by q) [] l.

(** [where={"video_id": v}], or no filter. *)
Definition where_ok (where_clause : option oid) (e : Entry) : bool :=
  match where_clause with
  | None => true
  | Some v => match md_video_id (en_metadata e) with
              | Some v' => N.eqb v v'
              | None => false
              end
  end.

(** [collection.query(query_embeddings=[q], n_results=k, where=...)]: the
    [k] nearest entries among those matching the filter. *)
Definition chroma_query (s : list Entry) (q : list Z) (k : nat) (where_clause : option oid)
  : list Entry :=
  firstn k (rank_by q (List.filter (where_ok where_clause) s)).

(** [search_video_content(query, video_id, top_k)]: a list of
    [{"content": doc, "metadata": metadata}]. *)
Definition search_video_content (w : World) (db : DB) (query : string) (video_id : option oid)
    (top_k : nat) : list (string * Meta) :=
  map (fun e => (en_document e, en_metadata e))
      (chroma_query (store db) (embed w query) top_k video_id).

(** Ids of the videos whose [module_id] is [m]. *)
Definition module_video_ids (db : DB) (m : oid) : list oid :=
  map fst (List.filter (fun kv : oid * Doc =>
                     match kv.2 !! "module_id" with
                     | Some (VId m') => N.eqb m m'
                     | _ => false
                     end) (map_to_list (videos db))).

(** The retrieval step of [module_specific_chat]: an unscoped search for
    5 results, kept when their [video_id] is one of the module's videos. *)
Definition module_chunks (w : World) (db : DB) (module_id : oid) (query : string) : list string :=
  let ids := module_video_ids db module_id in
  map fst (List.filter (fun r : string * Meta =>
                     match md_video_id r.2 with
                     | Some v => bool_decide (v ∈ ids)
                     | None => false
                     end)
                  (search_video_content w db query None 5)).

(** ** Observations *)

(** [coll[id][key]] *)
Definition doc_field (m : gmap oid Doc) (id : oid) (key : string) : option Val :=
  m !! id ≫= fun d => d !! key.

(** The value a [$set] list gives to [key]. *)
Fixpoint set_value (key : string) (sets : list (string * Val)) : option Val :=
  match sets with
  | [] => None
  | (k, v) :: rest => if String.eqb k key then Some v else set_value key rest
  end.

(** The update commands issued on [videos[id]], in order. *)
Definition video_updates (id : oid) (ws : list Update) : list Update :=
  List.filter (fun u => String.eqb (up_coll u) "videos" && N.eqb (up_id u) id) ws.

(** The [progress] values written for video [id], in order. *)
Definition progress_writes (id : oid) (ws : list Update) : list Z :=
  flat_map (fun u => match set_value "progress" (up_set u) with
                     | Some (VInt z) => [z]
                     | _ => []
                     end) (video_updates id ws).

(** The [status] values written for video [id], in order. *)
Definition status_writes (id : oid) (ws : list Update) : list string :=
  flat_map (fun u => match set_value "status" (up_set u) with
                     | Some (VStr s) => [s]
                     | _ => []
                     end) (video_updates id ws).

(** A word of [str.split()]: non-empty, without whitespace. *)
Fixpoint no_space (s : string) : bool :=
  match s with
  | EmptyString => true
  | String c s' => negb (Py.is_space c) && no_space s'
  end.

Definition word_ok (w : string) : Prop := w <> "" /\ no_space w = true.

(** The transcripts owned by a record: [{key: ObjectId(owner)}]. *)
Definition owns (key : string) (owner : oid) (t : Transcript) : bool :=
  String.eqb (tr_key t) key && N.eqb (tr_owner t) owner.

(** ** Courses, enrollments, modules and the module chat log *)

(** A document of [modules]. *)
Record ModuleDoc := mkModuleDoc {
  mod_course : oid;          (** [course_id] *)
  mod_name : string;
  mod_description : string
}.

(** A document of [module_chats].  Its [timestamp] is its position in the
    log: [datetime.utcnow()] at insertion, taken as strictly increasing. *)
Record Chat := mkChat {
  ch_module : oid;
  ch_user : oid;
  ch_role : string;
  ch_query : string;
  ch_response : string
}.

(** The collections read for access control, and the chat log (oldest
    first).  [course_rooms] maps a course id to its [created_by]. *)
Record Catalog := mkCatalog {
  course_rooms : gmap oid oid;
  enrollments : list (oid * oid);   (** [(user_id, course_id)] *)
  modules : gmap oid ModuleDoc;
  module_chats : list Chat
}.

Definition set_module_chats (l : list Chat) (cat : Catalog) : Catalog :=
  mkCatalog (course_rooms cat) (enrollments cat) (modules cat) l.

(** [current_user]: [id] and [role]. *)
Record User := mkUser {
  user_id : oid;
  user_role : string
}.

(** [await db["enrollments"].find_one({"user_id": u, "course_id": c}) is not None] *)
Definition enrolled (cat : Catalog) (u c : oid) : bool :=
  existsb (fun e : oid * oid => N.eqb e.1 u && N.eqb e.2 c) (enrollments cat).

(** [is_owner or is_enrolled] for course [c] created by [creator]. *)
Definition may_access (cat : Catalog) (u : User) (creator c : oid) : bool :=
  N.eqb creator (user_id u) || enrolled cat (user_id u) c.

(** [db["course_rooms"].find_one({"_id": v})]: the course id and its
    [created_by]. *)
Definition course_of (cat : Catalog) (v : Val) : option (oid * oid) :=
  match v with
  | VId c => match course_rooms cat !! c with
             | Some creator => Some (c, creator)
             | None => None
             end
  | _ => None
  end.

(** [not course or str(course["created_by"]) != current_user["id"]], negated. *)
Definition is_course_owner (cat : Catalog) (u : User) (v : Val) : bool :=
  match course_of cat v with
  | Some (_, creator) => N.eqb creator (user_id u)
  | None => false
  end.

(** [d[key]]: a [KeyError] when the field is missing. *)
Definition get_field (d : Doc) (key : string) : M Val :=
  match d !! key with
  | Some v => ret v
  | None => raise (Exception ("'" ++ key ++ "'"))
  end.

(** [bson.errors.InvalidId], raised by [ObjectId(s)] on a malformed string. *)
Definition invalid_id (s : string) : exn :=
  Exception (Oid.py_repr s ++
    " is not a valid ObjectId, it must be a 12-byte input or a 24-character hex string").

(** [module_obj_id = ObjectId(s)] and
    [db["modules"].find_one({"_id": module_obj_id})]: the parsed id with the
    module, [None] when no module has that id. *)
Definition find_module (cat : Catalog) (s : string) : result (option (oid * ModuleDoc)) :=
  match Oid.object_id s with
  | None => Err (invalid_id s)
  | Some None => Ok None
  | Some (Some module_obj_id) => Ok (option_map (pair module_obj_id) (modules cat !! module_obj_id))
  end.

(** Decimal digits of [n] before [acc] ([str(n)]; [fuel] bounds the number
    of digits). *)
Fixpoint digits_acc (fuel : nat) (n : N) (acc : string) : string :=
  match fuel with
  | O => acc
  | S f =>
      let acc' := String (ascii_of_N (48 + n mod 10)) acc in
      if (n <? 10)%N then acc' else digits_acc f (n / 10) acc'
  end.

Definition z_str (z : Z) : string :=
  if (z <? 0)%Z then "-" ++ digits_acc 64 (Z.to_N (- z)) ""
  else digits_acc 64 (Z.to_N z) "".

(** [str(e)]; Starlette's [HTTPException.__str__] is
    [f"{status_code}: {detail}"]. *)
Definition str_exn (e : exn) : string :=
  match e with
  | Exception m | RuntimeError m => m
  | HTTPException code d => z_str code ++ ": " ++ d
  end.

(** ** [app/routes/video_processing.py]: the other video routes *)

(** [get_video] *)
Definition get_video (cat : Catalog) (u : User) (video_id : oid) : M Doc :=
  try_except
    (video <- find_one "videos" video_id ;;
     match video with
     | None => raise (HTTPException 404 "Video not found")
     | Some v =>
         cid <- get_field v "course_id" ;;
         match course_of cat cid with
         | None => raise (HTTPException 404 "Video course not found")
         | Some (c, creator) =>
             if may_access cat u creator c then ret v
             else raise (HTTPException 403 "Access denied")
         end
     end)
    (fun e => raise (HTTPException 500 ("Error retrieving video: " ++ str_exn e))).

(** The [update_data] of [update_video]. *)
Definition video_update_data (title : option string) (published : option bool)
  : list (string * Val) :=
  (match title with Some t => [("title", VStr t)] | None => [] end ++
   match published with
   | Some b => ("published", VBool b) :: (if b then [("published_at", VNow)] else [])
   | None => []
   end)%list.

(** [update_video]: the document read back after the update. *)
Definition update_video (cat : Catalog) (u : User) (video_id : oid)
    (title : option string) (published : option bool) : M Doc :=
  try_except
    (video <- find_one "videos" video_id ;;
     match video with
     | None => raise (HTTPException 404 "Video not found")
     | Some v =>
         cid <- get_field v "course_id" ;;
         if negb (is_course_owner cat u cid)
         then raise (HTTPException 403 "Only course owner can update video details")
         else
           let update_data := video_update_data title published in
           (match update_data with
            | [] => ret tt
            | _ => update_one "videos" video_id update_data []
            end) ;;;
           updated_video <- find_one "videos" video_id ;;
           match updated_video with
           | Some d => ret d
           | None => raise (Exception "'NoneType' object does not support item assignment")
           end
     end)
    (fun e => raise (HTTPException 500 ("Error updating video: " ++ str_exn e))).

(** [get_video_transcript]: [find_one] returns the first match in natural
    order, the order of the list. *)
Definition get_video_transcript (cat : Catalog) (u : User) (video_id : oid) : M Transcript :=
  try_except
    (video <- find_one "videos" video_id ;;
     match video with
     | None => raise (HTTPException 404 "Video not found.")
     | Some v =>
         cid <- get_field v "course_id" ;;
         match course_of cat cid with
         | None => raise (HTTPException 404 "Video course not found.")
         | Some (c, creator) =>
             if negb (may_access cat u creator c)
             then raise (HTTPException 403 "Access denied.")
             else
               db <- get_db ;;
               match List.find (owns "video_id" video_id) (transcripts db) with
               | Some t => ret t
               | None => raise (HTTPException 404 "No transcript found for this video.")
               end
         end
     end)
    (fun e => raise (HTTPException 500 ("Error retrieving transcript: " ++ str_exn e))).

Definition has_key (d : Doc) (k : string) : bool :=
  match d !! k with Some _ => true | None => false end.

(** [update_video_transcript].  The module imports [datetime] itself
    ([import datetime]), so building [transcript_doc] evaluates
    [datetime.utcnow()], which raises [AttributeError]; the lookup and the
    write after it are never reached. *)
Definition update_video_transcript (cat : Catalog) (u : User) (video_id : oid)
    (segments : list Doc) : M string :=
  try_except
    (video <- find_one "videos" video_id ;;
     match video with
     | None => raise (HTTPException 404 "Video not found.")
     | Some v =>
         cid <- get_field v "course_id" ;;
         if negb (is_course_owner cat u cid)
         then raise (HTTPException 403 "Only course owner can update video transcript.")
         else if negb (forallb (fun s => has_key s "start" && has_key s "end" && has_key s "text")
                               segments)
         then raise (HTTPException 400 "Each segment must have 'start', 'end', and 'text' fields")
         else raise (Exception "module 'datetime' has no attribute 'utcnow'")
     end)
    (fun e => raise (HTTPException 500 ("Error updating transcript: " ++ str_exn e))).

(** [delete_one] on a list: the list without its first match, [None] when
    nothing matches. *)
Fixpoint remove_first {A} (p : A -> bool) (l : list A) : option (list A) :=
  match l with
  | [] => None
  | x :: l' => if p x then Some l' else option_map (cons x) (remove_first p l')
  end.

(** [delete_video_transcript] *)
Definition delete_video_transcript (cat : Catalog) (u : User) (video_id : oid) : M string :=
  try_except
    (video <- find_one "videos" video_id ;;
     match video with
     | None => raise (HTTPException 404 "Video not found.")
     | Some v =>
         cid <- get_field v "course_id" ;;
         if negb (is_course_owner cat u cid)
         then raise (HTTPException 403 "Only course owner can delete video transcript.")
         else
           db <- get_db ;;
           match remove_first (owns "video_id" video_id) (transcripts db) with
           | Some ts => put_db (set_transcripts ts db) ;;; ret "Transcript deleted successfully"
           | None => raise (HTTPException 404 "Transcript not found or could not be deleted.")
           end
     end)
    (fun e => raise (HTTPException 500 ("Error deleting transcript: " ++ str_exn e))).

(** ** Deletion: [delete_resource] and [delete_video] *)

(** [delete_resource] in [resources.py]; removing the local file (its
    errors are caught and printed) is not part of the database model. *)
Definition delete_resource (cat : Catalog) (u : User) (resource_id : oid) : M string :=
  r <- find_one "resources" resource_id ;;
  match r with
  | None => raise (HTTPException 404 "Resource not found.")
  | Some d =>
      course_id <- get_field d "course_id" ;;
      if negb (is_course_owner cat u course_id)
      then raise (HTTPException 403 "Only course owner can delete resources.")
      else if negb (String.eqb (user_role u) "FACULTY")
      then raise (HTTPException 403 "Only faculty members can delete resources.")
      else
        n <- delete_one "resources" resource_id ;;
        if Nat.eqb n 0 then raise (HTTPException 404 "Resource could not be deleted")
        else delete_transcripts "resource_id" resource_id ;;;
             delete_summaries "resource_id" resource_id ;;;
             delete_quizzes "resource_id" resource_id ;;;
             ret "Resource and related content deleted successfully"
  end.

(** [delete_video] in [video_processing.py]: every exception of the [try],
    the 404 and 403 included, becomes a 500 with [str(e)]. *)
Definition delete_video (cat : Catalog) (u : User) (video_id : oid) : M string :=
  try_except
    (v <- find_one "videos" video_id ;;
     match v with
     | None => raise (HTTPException 404 "Video not found")
     | Some d =>
         course_id <- get_field d "course_id" ;;
         if negb (is_course_owner cat u course_id)
         then raise (HTTPException 403 "Only course owner can delete video")
         else
           delete_transcripts "video_id" video_id ;;;
           delete_summaries "video_id" video_id ;;;
           n <- delete_one "videos" video_id ;;
           if Nat.eqb n 0 then raise (HTTPException 404 "Video could not be deleted")
           else ret "Video and related content deleted successfully"
     end)
    (fun e => raise (HTTPException 500 ("Error deleting video: " ++ str_exn e))).

(** ** [app/routes/video_status.py] *)

(** [VideoProcessingStatus]; [None] is a field left unset. *)
Record VideoProcessingStatus := mkVideoProcessingStatus {
  vps_videoId : oid;
  vps_status : Val;
  vps_progress : option Val;
  vps_currentStep : option Val;
  vps_estimatedTimeRemaining : option Val;
  vps_error : option Val
}.

(** [get_video_processing_status] ([str(video["_id"])] is [videoId]). *)
Definition get_video_processing_status (cat : Catalog) (u : User) (videoId : oid)
  : M VideoProcessingStatus :=
  video <- find_one "videos" videoId ;;
  match video with
  | None => raise (HTTPException 404 "Video not found.")
  | Some v =>
      cid <- get_field v "course_id" ;;
      match course_of cat cid with
      | None => raise (HTTPException 404 "Course not found.")
      | Some (c, creator) =>
          if negb (may_access cat u creator c)
          then raise (HTTPException 403 "You don't have permission to access this video.")
          else
            st <- get_field v "status" ;;
            let processing := val_is st "PROCESSING" in
            ret (mkVideoProcessingStatus videoId st
                   (if processing then Some (default (VInt 0) (v !! "progress")) else None)
                   (if processing then Some (default (VStr "Initializing") (v !! "current_step")) else None)
                   (if processing then Some (default (VInt 180) (v !! "estimated_time_remaining")) else None)
                   (if val_is st "FAILED"
                    then Some (default (VStr "Processing failed") (v !! "error_message"))
                    else None))
      end
  end.

(** ** [app/routes/videos.py]: listing and the module upload *)

Definition in_module (m : oid) (kv : oid * Doc) : bool :=
  match kv.2 !! "module_id" with
  | Some (VId m') => N.eqb m m'
  | _ => false
  end.

(** [db["videos"].find({"module_id": m})], in natural order. *)
Definition module_videos (db : DB) (m : oid) : list (oid * Doc) :=
  List.filter (in_module m) (map_to_list (videos db)).

Record VideoOut := mkVideoOut {
  vo_id : oid;
  vo_title : Val;
  vo_durationSeconds : option Val;
  vo_status : Val;
  vo_published : Val;
  vo_publishedAt : option Val;
  vo_thumbnailUrl : option Val;
  vo_hasTranscript : bool;
  vo_hasSummary : bool;
  vo_hasQuiz : bool
}.

(** [VideoOut(...)] of one video; [video["title"]] and [video["status"]]
    raise [KeyError] when missing. *)
Definition video_out (db : DB) (kv : oid * Doc) : M VideoOut :=
  let '(id, v) := kv in
  title <- get_field v "title" ;;
  st <- get_field v "status" ;;
  ret (mkVideoOut id title (v !! "duration_seconds") st
         (default (VBool false) (v !! "published")) (v !! "published_at")
         (v !! "thumbnail_url")
         (existsb (owns "video_id" id) (transcripts db))
         (existsb (owned_by "video_id" id) (summaries db))
         (existsb (owned_by "video_id" id) (quizzes db))).

Fixpoint map_M {A B} (f : A -> M B) (l : list A) : M (list B) :=
  match l with
  | [] => ret []
  | x :: l' => y <- f x ;; ys <- map_M f l' ;; ret (y :: ys)
  end.

(** [VideoListResponse]; [pagination] is [{"total": ..., "page": 1,
    "limit": 100}]. *)
Record VideoListResponse := mkVideoListResponse {
  vl_videos : list VideoOut;
  vl_total : nat
}.

(** [list_videos_by_module] *)
Definition list_videos_by_module (cat : Catalog) (u : User) (moduleId : string)
  : M VideoListResponse :=
  match find_module cat moduleId with
  | Err e => raise e
  | Ok None => raise (HTTPException 404 "Module not found.")
  | Ok (Some (module_obj_id, m)) =>
      match course_rooms cat !! mod_course m with
      | None => raise (HTTPException 404 "Module course not found.")
      | Some creator =>
          if negb (may_access cat u creator (mod_course m))
          then raise (HTTPException 403 "Access denied.")
          else
            db <- get_db ;;
            video_list <- map_M (video_out db) (firstn 100 (module_videos db module_obj_id)) ;;
            ret (mkVideoListResponse video_list (List.length video_list))
      end
  end.

Definition MAX_FILE_SIZE : N := 2 * 1024 * 1024 * 1024.

Definition ALLOWED_VIDEO_TYPES : list string :=
  ["video/mp4"; "video/avi"; "video/mov"; "video/quicktime"; "video/x-msvideo";
   "video/x-matroska"; "video/webm"; "video/mpeg"; "video/3gpp"; "video/3gpp2"; "video/x-flv"].

(** The uploaded [file] and what the environment does with it: its size,
    the [str(e)] of an error while the temporary file is written (taken to
    occur before the size limit is passed), what [upload_file_to_drive]
    returns, and the [uuid.uuid4()] of the local name.  [os.rename] to the
    local name is taken to succeed. *)
Record UploadFile := mkUploadFile {
  file_content_type : string;
  file_filename : string;
  file_size : N;
  file_save_error : option string;
  drive_file_id : option string;
  file_uuid : string
}.

(** Steps 2 and 3 of [upload_video_sync_to_module]: validate, save the
    temporary file, then upload it to Drive or move it to
    [uploads/videos]; the result is [(storage_url, storage_type)]. *)
Definition store_video_file (file : UploadFile) (upload_to_drive : bool) : M (string * string) :=
  if negb (existsb (String.eqb (file_content_type file)) ALLOWED_VIDEO_TYPES)
  then raise (HTTPException 415 ("Unsupported video format (only MP4, AVI, MOV). Given file format"
                                 ++ file_content_type file))
  else match file_save_error file with
  | Some e => raise (HTTPException 500 ("Failed to save uploaded file: " ++ e))
  | None =>
      if (MAX_FILE_SIZE <? file_size file)%N
      then raise (HTTPException 413 "File size exceeds 2GB limit.")
      else if upload_to_drive
      then (if Py.truthy (drive_file_id file)
            then ret (default "" (drive_file_id file), "drive")
            else raise (HTTPException 500 "Failed to upload video to Google Drive."))
      else ret ("uploads/videos/" ++ file_uuid file ++ "_" ++ file_filename file, "local")
  end.

(** [upload_video_sync_to_module]: step 1, steps 2 and 3 giving
    [storage_url] and [storage_type], then steps 4 and 5, which are those
    of [upload_video_sync] with the module's course and the module id. *)
Definition upload_video_sync_to_module (cat : Catalog) (u : User) (moduleId : string)
    (title : string) (upload_to_drive : bool) (file : UploadFile) : M VideoUploadResponse :=
  match find_module cat moduleId with
  | Err e => raise e
  | Ok None => raise (HTTPException 404 "Module not found.")
  | Ok (Some (module_obj_id, m)) =>
      match course_rooms cat !! mod_course m with
      | None => raise (HTTPException 404 "Course for module not found.")
      | Some creator =>
          if negb (String.eqb (user_role u) "FACULTY") || negb (N.eqb creator (user_id u))
          then raise (HTTPException 403
                        "Only faculty who created the course can upload videos to modules.")
          else
            stored <- store_video_file file upload_to_drive ;;
            upload_video_sync (mod_course m) (Some module_obj_id) title (fst stored) (snd stored)
      end
  end.

(** ** [app/rag/generator.py]: [add_documents] *)

(** [{"source": "document"}]: no [video_id]; the other fields are absent
    and read by no modelled code. *)
Definition document_meta : Meta := mkMeta "document" None 0 0 0.

(** [RAGGenerator.add_documents] *)
Fixpoint add_documents (documents : list string) : M unit :=
  match documents with
  | [] => ret tt
  | doc :: rest =>
      fold_right (fun ch k => w <- ask_world ;; collection_add (embed w ch) ch document_meta ;;; k)
        (ret tt) (Chunker.chunk doc chunk_size chunk_overlap) ;;;
      add_documents rest
  end.

(** ** [app/routes/module_chat.py] *)

(** [request.app.state]: whether [rag_generator] and [generator] are set,
    the exception, if any, that [rag_generator.search_video_content] or the
    query of the module's videos raises, and [generator.generate_response]. *)
Record Services := mkServices {
  has_rag_generator : bool;
  has_generator : bool;
  retrieval_error : option exn;
  generate_response : string -> result string
}.

Record ModuleChatResponse := mkModuleChatResponse {
  mc_response : string;
  mc_moduleId : string;
  mc_query : string;
  context_used : bool
}.

Definition nl : string := String "010"%char "".

(** ["\n".join(ls)] *)
Fixpoint join_lines (ls : list string) : string :=
  match ls with
  | [] => ""
  | [l] => l
  | l :: ls' => l ++ nl ++ join_lines ls'
  end.

(** [llm_prompt_template.format(context=..., query=...)] *)
Definition chat_prompt (context query : string) : string :=
  "Context: " ++ context ++ nl ++ nl ++ "Question: " ++ query ++ nl ++ nl ++ "Answer:".

(** The response of the [except] block. *)
Definition chat_fallback (m : ModuleDoc) (query : string) (e : exn) : string :=
  "Based on module '" ++ mod_name m ++ "', here is information related to your query about '"
  ++ query ++ "'. [Note: AI processing failed - " ++ str_exn e ++ "]".

(** [module_specific_chat]: the result and the chat log after the call.
    In the [try] block, [filtered_chunks] is [None] until it is assigned;
    reading it unassigned after the block raises [UnboundLocalError]. *)
Definition module_specific_chat (svc : Services) (w : World) (db : DB) (cat : Catalog)
    (u : User) (module_id : string) (query : string) : result ModuleChatResponse * Catalog :=
  match find_module cat module_id with
  | Err e => (Err e, cat)
  | Ok None => (Err (HTTPException 404 "Module not found."), cat)
  | Ok (Some (module_obj_id, m)) =>
      match course_rooms cat !! mod_course m with
      | None => (Err (HTTPException 404 "Module course not found."), cat)
      | Some creator =>
          if negb (may_access cat u creator (mod_course m))
          then (Err (HTTPException 403 "Access denied."), cat)
          else if String.eqb query ""
          then (Err (HTTPException 400 "Message is required."), cat)
          else
            let '(response, filtered_chunks) :=
              if negb (has_rag_generator svc)
              then (chat_fallback m query
                      (Exception "'State' object has no attribute 'rag_generator'"), None)
              else if negb (has_generator svc)
              then (chat_fallback m query
                      (Exception "'State' object has no attribute 'generator'"), None)
              else match retrieval_error svc with
              | Some e => (chat_fallback m query e, None)
              | None =>
                let filtered := module_chunks w db module_obj_id query in
                let context :=
                  match filtered with
                  | [] => "Module: " ++ mod_name m ++ nl ++ "Description: " ++ mod_description m
                  | _ => join_lines filtered
                  end in
                match generate_response svc (chat_prompt context query) with
                | Ok r => (r, Some filtered)
                | Err e => (chat_fallback m query e, Some filtered)
                end
              end in
            let cat' := set_module_chats
                          (module_chats cat ++
                           [mkChat module_obj_id (user_id u) (user_role u) query response]) cat in
            match filtered_chunks with
            | None =>
                (Err (Exception
                        "cannot access local variable 'filtered_chunks' where it is not associated with a value"),
                 cat')
            | Some f =>
                (Ok (mkModuleChatResponse response module_id query
                       (negb (Nat.eqb (List.length f) 0))), cat')
            end
      end
  end.

(** [get_module_chat_history]: the module's chats sorted by descending
    timestamp, limited to 50, then reversed.  The response keeps [query],
    [response], [role] and [timestamp] of each. *)
Definition get_module_chat_history (cat : Catalog) (u : User) (module_id : string)
  : result (list Chat) :=
  match find_module cat module_id with
  | Err e => Err e
  | Ok None => Err (HTTPException 404 "Module not found.")
  | Ok (Some (module_obj_id, m)) =>
      match course_rooms cat !! mod_course m with
      | None => Err (HTTPException 404 "Module course not found.")
      | Some creator =>
          if negb (may_access cat u creator (mod_course m))
          then Err (HTTPException 403 "Access denied.")
          else Ok (rev (firstn 50 (rev (List.filter (fun ch => N.eqb (ch_module ch) module_obj_id)
                                                   (module_chats cat)))))
      end
  end.

(** [module["name"] if module else "Unknown Module"] *)
Definition module_name_of (cat : Catalog) (mid : oid) : string :=
  match modules cat !! mid with
  | Some m => mod_name m
  | None => "Unknown Module"
  end.

(** A history entry: [moduleName] and the chat. *)
Definition history_entry (cat : Catalog) (ch : Chat) : string * Chat :=
  (module_name_of cat (ch_module ch), ch).

(** [db["modules"].find({"course_id": c})] *)
Definition course_module_ids (cat : Catalog) (c : oid) : list oid :=
  map fst (List.filter (fun kv : oid * ModuleDoc => N.eqb (mod_course kv.2) c)
                       (map_to_list (modules cat))).

(** [get_all_modules_chat_history] *)
Definition get_all_modules_chat_history (cat : Catalog) (u : User) : list (string * Chat) :=
  let uid := user_id u in
  let owned_courses :=
    map fst (List.filter (fun kv : oid * oid => N.eqb kv.2 uid) (map_to_list (course_rooms cat))) in
  let enrolled_course_ids :=
    map snd (List.filter (fun e : oid * oid => N.eqb e.1 uid) (enrollments cat)) in
  let accessible_course_ids := (owned_courses ++ enrolled_course_ids)%list in
  match accessible_course_ids with
  | [] => []
  | _ =>
      let module_ids :=
        map fst (List.filter (fun kv : oid * ModuleDoc =>
                                bool_decide (mod_course kv.2 ∈ accessible_course_ids))
                             (map_to_list (modules cat))) in
      match module_ids with
      | [] => []
      | _ => map (history_entry cat)
               (rev (List.filter (fun ch => bool_decide (ch_module ch ∈ module_ids)
                                            && N.eqb (ch_user ch) uid)
                                 (module_chats cat)))
      end
  end.

(** [get_course_modules_chat_history] *)
Definition get_course_modules_chat_history (cat : Catalog) (u : User) (course_id : oid)
  : result (list (string * Chat)) :=
  match course_rooms cat !! course_id with
  | None => Err (HTTPException 404 "Course not found.")
  | Some creator =>
      if negb (may_access cat u creator course_id)
      then Err (HTTPException 403 "Access denied.")
      else
        let module_ids := course_module_ids cat course_id in
        match module_ids with
        | [] => Ok []
        | _ => Ok (map (history_entry cat)
                     (rev (List.filter (fun ch => bool_decide (ch_module ch ∈ module_ids))
                                       (module_chats cat))))
        end
  end.

(** The Ltac used to run the monadic code symbolically. *)
Ltac unfold_M :=
  unfold run_route, run_task, bind, try_except, ret, raise, ask_world, get_db, put_db,
    new_loop_run, fresh_id, insert_one, find_one, update_one, delay in *.

(** ** Frame conditions *)

(** The database after appending [new] to the Chroma collection. *)
Definition with_entries (db : DB) (new : list Entry) : DB :=
  mkDB (videos db) (resources db) (transcripts db) (summaries db) (quizzes db)
       (store db ++ new) (queue db) (writes db) (next_id db + N.of_nat (List.length new)).

(** The field [k] of video [id] holds [val]. *)
Definition video_field (id : oid) (k : string) (val : Val) (db : DB) : Prop :=
  doc_field (videos db) id k = Some val.

(** A computation that keeps the database property [P]. *)
Definition preserves (P : DB -> Prop) {A} (m : M A) : Prop :=
  forall c db, P db -> P (snd (m c db)).

(** ** Sample inputs *)

Definition ten_words : string :=
  "Vectors add componentwise and scale by multiplying every single component
".

(** A world with one local video file, one text document, a transcriber
    that always hears the same sentence, a toy embedding and a broker that
    is up or down. *)
Definition demo_world (broker : bool) : World :=
  mkWorld
    (fun p => String.eqb p "uploads/videos/lecture.mp4")
    (fun p => if String.eqb p "uploads/documents/txt/notes.txt" then Some ten_words else None)
    (fun _ => None)
    (fun _ => None)
    (fun _ => Some (30 # 1))
    (fun _ => true)
    (fun _ => Some "welcome to the lecture")
    broker
    (fun s => [Z.of_nat (String.length s)])
    true.

Definition empty_db : DB := mkDB ∅ ∅ [] [] [] [] [] [] 0.

(** Two modules' videos (0 in module 5, 1 in module 6), indexed with five
    chunks for video 0 and two for video 1. *)
Definition two_module_db : DB :=
  let md v i := mkMeta "video_transcript" (Some v) 0 30 i in
  mkDB {[ 0%N := {[ "module_id" := VId 5 ]}; 1%N := {[ "module_id" := VId 6 ]} ]} ∅ [] [] []
    [mkEntry 10 [1%Z] "a0" (md 0%N 0%nat); mkEntry 11 [2%Z] "a1" (md 0%N 1%nat);
     mkEntry 12 [3%Z] "a2" (md 0%N 2%nat); mkEntry 13 [4%Z] "a3" (md 0%N 3%nat);
     mkEntry 14 [5%Z] "a4" (md 0%N 4%nat); mkEntry 15 [6%Z] "b0" (md 1%N 0%nat);
     mkEntry 16 [7%Z] "b1" (md 1%N 1%nat)]
    [] [] 20.

(** A text of 110 distinct two-letter words ("AA BA CA ... FE"). *)
Definition two_letter_word (i : nat) : string :=
  String (ascii_of_nat (65 + i mod 26)) (String (ascii_of_nat (65 + i / 26)) "").

Definition long_text : string := Py.join (map two_letter_word (seq 0 110)).

(** Course 7, created by user 100 and followed by user 200, with module 5. *)
Definition demo_catalog : Catalog :=
  mkCatalog {[ 7%N := 100%N ]} [(200%N, 7%N)]
    {[ 5%N := mkModuleDoc 7 "Vectors" "Linear algebra basics" ]} [].

Definition faculty : User := mkUser 100 "FACULTY".
Definition student : User := mkUser 200 "STUDENT".

(** [str(ObjectId)] of module 5, the path parameter of its routes. *)
Definition module5_str : string := "000000000000000000000005".

(** A 1 MB MP4, saved without error; kept locally it is
    [uploads/videos/1_lecture.mp4]. *)
Definition demo_upload : UploadFile :=
  mkUploadFile "video/mp4" "lecture.mp4" 1048576 None None "1".

(** Video 0 of module 5 in course 7, with one transcript. *)
Definition course_video_db : DB :=
  mkDB {[ 0%N := {[ "course_id" := VId 7; "module_id" := VId 5; "title" := VStr "Lecture 1";
                   "status" := VStr "COMPLETE" ]} ]} ∅
    [mkTranscript 1 "video_id" 0 [mkSegment 0 30 "welcome"] 1 "en" 1] [] [] [] [] [] 2.

(** * Claims *)

(** ** The broker fallback of the queued upload *)

(** C1 (code defect): when the broker refuses the connection, the fallback of
    [upload_video] (and of the video branch of [upload_resource]) calls
    [loop.run_until_complete] inside the running request loop; it raises
    [RuntimeError] before any write, so the request fails and the record
    keeps status PENDING, with no message queued and no error recorded. *)
Theorem broker_down_upload_stays_pending (w : World) (db : DB) (course : oid)
    (module : option oid) (title url st ct : string) :
  broker_up w = false -> (st = "drive" \/ st = "local") ->
  String.prefix "video/" ct = true ->
  (let '(r, db') := run_route (upload_video course module title url st) w db in
   (exists msg, r = Err (RuntimeError msg)) /\
   doc_field (videos db') (next_id db) "status" = Some (VStr "PENDING") /\
   doc_field (videos db') (next_id db) "error_message" = None /\
   queue db' = queue db) /\
  (let '(r, db') := run_route (upload_resource course module title ct url st) w db in
   (exists msg, r = Err (RuntimeError msg)) /\
   doc_field (resources db') (next_id db) "status" = Some (VStr "PENDING") /\
   doc_field (resources db') (next_id db) "error_message" = None /\
   queue db' = queue db).
Proof.
  intros Hb Hst Hct.
  unfold upload_resource, resource_type_of; rewrite Hct.
  destruct Hst as [-> | ->];
    unfold upload_video, dispatch_video_task; unfold_M; cbn -[new_video_doc new_resource_doc];
    rewrite Hb; cbn -[new_video_doc new_resource_doc];
    (split; (split; [eexists; reflexivity | split; [| split; [| reflexivity]]]));
    unfold doc_field; rewrite lookup_insert_eq; reflexivity.
Qed.

(** C10 (code defect): the queued upload answers PENDING when the message is
    queued; when the broker is down it gives no answer at all (the fallback
    raises), so no response ever reports PENDING for a record the fallback
    marked FAILED. *)
Theorem upload_video_response_status (w : World) (db : DB) (course : oid)
    (module : option oid) (title url st : string) :
  (st = "drive" \/ st = "local") ->
  let '(r, db') := run_route (upload_video course module title url st) w db in
  (broker_up w = true ->
     r = Ok (mkVideoUploadResponse (next_id db) title "PENDING" 300) /\
     doc_field (videos db') (next_id db) "status" = Some (VStr "PENDING")) /\
  (broker_up w = false ->
     (forall resp, r <> Ok resp) /\
     doc_field (videos db') (next_id db) "status" = Some (VStr "PENDING")).
Proof.
  intros Hst.
  destruct (broker_up w) eqn:Hb;
  destruct Hst as [-> | ->];
    unfold upload_video, dispatch_video_task; unfold_M; cbn -[new_video_doc];
    rewrite Hb; cbn -[new_video_doc]; unfold doc_field, set_queue; cbn -[new_video_doc];
    rewrite lookup_insert_eq;
    (split; intros H; try discriminate H).
  all: split; [| reflexivity].
  all: try reflexivity.
  all: intros resp Hr; discriminate Hr.
Qed.

Lemma broker_down_upload_stays_pending_witness :
  broker_up (demo_world false) = false /\ ("local" = "drive" \/ "local" = "local") /\
  String.prefix "video/" "video/mp4" = true /\
  ((let '(r, db') := run_route (upload_video 1 None "Lecture 1" "uploads/videos/lecture.mp4" "local")
                       (demo_world false) empty_db in
    (exists msg, r = Err (RuntimeError msg)) /\
    doc_field (videos db') (next_id empty_db) "status" = Some (VStr "PENDING") /\
    doc_field (videos db') (next_id empty_db) "error_message" = None /\
    queue db' = queue empty_db) /\
   (let '(r, db') := run_route (upload_resource 1 None "Lecture 1" "video/mp4"
                                 "uploads/videos/lecture.mp4" "local") (demo_world false) empty_db in
    (exists msg, r = Err (RuntimeError msg)) /\
    doc_field (resources db') (next_id empty_db) "status" = Some (VStr "PENDING") /\
    doc_field (resources db') (next_id empty_db) "error_message" = None /\
    queue db' = queue empty_db)).
Proof.
  split; [reflexivity |]. split; [right; reflexivity |]. split; [reflexivity |].
  apply broker_down_upload_stays_pending; [reflexivity | right; reflexivity | reflexivity].
Defined.

Lemma upload_video_response_status_witness :
  ("local" = "drive" \/ "local" = "local") /\
  (let '(r, db') := run_route (upload_video 1 None "Lecture 1" "uploads/videos/lecture.mp4" "local")
                      (demo_world false) empty_db in
   (broker_up (demo_world false) = true ->
      r = Ok (mkVideoUploadResponse (next_id empty_db) "Lecture 1" "PENDING" 300) /\
      doc_field (videos db') (next_id empty_db) "status" = Some (VStr "PENDING")) /\
   (broker_up (demo_world false) = false ->
      (forall resp, r <> Ok resp) /\
      doc_field (videos db') (next_id empty_db) "status" = Some (VStr "PENDING"))).
Proof.
  split; [right; reflexivity |].
  apply upload_video_response_status; right; reflexivity.
Defined.

(** ** The status writer *)

Lemma update_video_status_no_video (c : Ctx) (db : DB) (id : oid) (st : string)
    (p : Z) (msg : string) (eta : Z) :
  videos db !! id = None ->
  let '(r, db') := update_video_status id st p msg eta c db in
  r = Ok tt /\ videos db' = videos db /\ resources db' = resources db.
Proof.
  intros Hv. unfold update_video_status.
  destruct (String.eqb st "PROCESSING"); unfold_M; cbn; rewrite Hv; cbn; auto.
Qed.

(** C2 (code defect): [update_video_status] writes only to [videos]; on an
    id with no video record, such as a resource id, it changes neither
    collection.  The resource routes still use it for the resource's
    statuses, so a failed synchronous video resource keeps the status
    PROCESSING (only [error_message] is written) and never becomes FAILED. *)
Theorem resource_status_never_written :
  (forall (c : Ctx) (db : DB) (id : oid) (st : string) (p : Z) (msg : string) (eta : Z),
     videos db !! id = None ->
     let '(r, db') := update_video_status id st p msg eta c db in
     r = Ok tt /\ videos db' = videos db /\ resources db' = resources db) /\
  (forall (w : World) (db : DB) (course : oid) (module : option oid) (title ct url : string),
     String.prefix "video/" ct = true -> url <> "" -> file_exists w url = false ->
     videos db !! next_id db = None ->
     let '(r, db') := run_route (upload_resource_sync course module title ct url "local") w db in
     r = Err (HTTPException 500
                ("Resource processing failed: Video file does not exist at path: " ++ url)) /\
     doc_field (resources db') (next_id db) "status" = Some (VStr "PROCESSING") /\
     doc_field (resources db') (next_id db) "error_message" =
       Some (VStr ("Video file does not exist at path: " ++ url)) /\
     videos db' = videos db).
Proof.
  split; [exact update_video_status_no_video|].
  intros w db course module title ct url Hct Hu Hf Hv.
  assert (Ht : resource_type_of ct = "video") by (unfold resource_type_of; rewrite Hct; reflexivity).
  apply String.eqb_neq in Hu.
  unfold upload_resource_sync. rewrite Ht.
  unfold video_sync_body, sync_failure, update_video_status; unfold_M.
  unfold coll, set_coll; cbn. rewrite Hv, Hu; cbn. rewrite Hf; cbn. rewrite Hv; cbn.
  unfold doc_field. rewrite lookup_insert_eq; cbn.
  split; [reflexivity|]. split; [|split].
  - simplify_map_eq. reflexivity.
  - simplify_map_eq. reflexivity.
  - reflexivity.
Qed.

Lemma resource_status_never_written_witness :
  String.prefix "video/" "video/mp4" = true /\
  "uploads/videos/missing.mp4" <> "" /\
  file_exists (demo_world true) "uploads/videos/missing.mp4" = false /\
  videos empty_db !! next_id empty_db = None /\
  (let '(r, db') := run_route (upload_resource_sync 7 None "Lecture 1" "video/mp4"
                                 "uploads/videos/missing.mp4" "local") (demo_world true) empty_db in
   r = Err (HTTPException 500
              ("Resource processing failed: Video file does not exist at path: " ++
               "uploads/videos/missing.mp4")) /\
   doc_field (resources db') (next_id empty_db) "status" = Some (VStr "PROCESSING") /\
   doc_field (resources db') (next_id empty_db) "error_message" =
     Some (VStr ("Video file does not exist at path: " ++ "uploads/videos/missing.mp4")) /\
   videos db' = videos empty_db).
Proof.
  split; [reflexivity|]. split; [discriminate|]. split; [reflexivity|]. split; [reflexivity|].
  apply resource_status_never_written; [reflexivity | discriminate | reflexivity | reflexivity].
Defined.

(** ** Missing media file *)

(** C3 (code defect): for a local video whose file is missing, the sync
    route fails with status FAILED and an error saying the file does not
    exist, before any transcript is written; the queued path (the Celery
    task) has no such check: it stores the placeholder transcript "Video
    processing failed", indexes it, and ends COMPLETE with no error. *)
Theorem missing_video_file_paths :
  let w := demo_world true in
  let url := "uploads/videos/missing.mp4" in
  (let '(_, db1) := run_route (upload_video 1 None "Lecture 2" url "local") w empty_db in
   let '(r, db2) := run_task (process_video_task 0 url) w db1 in
   r = Ok (TaskSuccess 0 1 30 3) /\
   doc_field (videos db2) 0 "status" = Some (VStr "COMPLETE") /\
   doc_field (videos db2) 0 "error_message" = None /\
   map tr_segments (transcripts db2) = [[mkSegment 0 1 "Video processing failed"]]) /\
  (let '(r, db3) := run_route (upload_video_sync 1 None "Lecture 2" url "local") w empty_db in
   (exists m, r = Err (HTTPException 500 m)) /\
   doc_field (videos db3) 0 "status" = Some (VStr "FAILED") /\
   doc_field (videos db3) 0 "error_message"
     = Some (VStr "Video file does not exist at path: uploads/videos/missing.mp4") /\
   Py.contains "does not exist" "Video file does not exist at path: uploads/videos/missing.mp4" = true /\
   transcripts db3 = []).
Proof.
  vm_compute.
  split; [repeat split |].
  split; [eexists; reflexivity | repeat split].
Qed.

(** ** Document uploads *)

(** C4, counterexample: the 10-word text document is stored as one
    transcript segment with word count 10 and the record becomes COMPLETE,
    but nothing is written to the vector store. *)
Lemma ten_word_document_not_indexed :
  let '(r, db') := run_route (upload_resource 1 None "Notes" "text/plain"
                               "uploads/documents/txt/notes.txt" "local") (demo_world true) empty_db in
  doc_field (resources db') 0 "status" = Some (VStr "COMPLETE") /\
  map tr_word_count (transcripts db') = [10%Z] /\
  map (fun t => List.length (tr_segments t)) (transcripts db') = [1%nat] /\
  List.length (store db') = 0%nat /\
  List.length (store db') <> 1%nat.
Proof.
  vm_compute. repeat split. discriminate.
Qed.

(** C4 (amended): a plain-text upload whose stripped content is non-empty
    stores one transcript with exactly one segment (0 to 0) holding the
    stripped text and a word count equal to its number of words, and sets
    the record COMPLETE; the document path neither chunks nor indexes, so
    the vector store is unchanged. *)
Theorem text_upload_transcript_only (w : World) (db : DB) (course : oid)
    (module : option oid) (title path st c : string) :
  file_text w path = Some c ->
  Py.strip c <> "" ->
  let '(r, db') := run_route (upload_resource course module title "text/plain" path st) w db in
  r = Ok (mkResourceUploadResponse (next_id db) title "txt" "PROCESSING" 0) /\
  doc_field (resources db') (next_id db) "status" = Some (VStr "COMPLETE") /\
  transcripts db' =
    (transcripts db ++
     [mkTranscript (next_id db + 1) "resource_id" (next_id db)
        [mkSegment 0 0 (Py.strip c)]
        (Z.of_nat (List.length (Py.split (Py.strip c)))) "en" 1])%list /\
  store db' = store db.
Proof.
  intros Hf Hs.
  assert (He : String.eqb (Py.strip c) "" = false) by (apply String.eqb_neq; exact Hs).
  unfold upload_resource, process_document, read_txt, save_document_content, insert_transcript;
    unfold_M; cbn -[new_resource_doc Py.strip Py.split].
  rewrite Hf; cbn -[new_resource_doc Py.strip Py.split].
  rewrite He; cbn -[new_resource_doc Py.strip Py.split].
  rewrite lookup_insert_eq; cbn -[new_resource_doc Py.strip Py.split].
  unfold doc_field; rewrite lookup_insert_eq.
  repeat split.
Qed.

Lemma text_upload_transcript_only_witness :
  file_text (demo_world true) "uploads/documents/txt/notes.txt" = Some ten_words /\
  Py.strip ten_words <> "" /\
  (let '(r, db') := run_route (upload_resource 1 None "Notes" "text/plain"
                                "uploads/documents/txt/notes.txt" "local") (demo_world true) empty_db in
   r = Ok (mkResourceUploadResponse (next_id empty_db) "Notes" "txt" "PROCESSING" 0) /\
   doc_field (resources db') (next_id empty_db) "status" = Some (VStr "COMPLETE") /\
   transcripts db' =
     (transcripts empty_db ++
      [mkTranscript (next_id empty_db + 1) "resource_id" (next_id empty_db)
         [mkSegment 0 0 (Py.strip ten_words)]
         (Z.of_nat (List.length (Py.split (Py.strip ten_words)))) "en" 1])%list /\
   store db' = store empty_db).
Proof.
  split; [reflexivity |]. split; [vm_compute; discriminate |].
  apply text_upload_transcript_only; [reflexivity | vm_compute; discriminate].
Defined.





(** ** Deletion *)

(** C9, counterexample: a video resource processed by [upload_resource_sync]
    is indexed; after [delete_resource] its record and transcript are gone
    but its embeddings are still in the vector store and a search scoped to
    its id still returns them. *)
Lemma deleted_resource_still_searchable :
  let w := demo_world true in
  let '(_, db1) := run_route (upload_resource_sync 7 None "Lecture 1" "video/mp4"
                                "uploads/videos/lecture.mp4" "local") w empty_db in
  let '(r, db2) := run_route (delete_resource demo_catalog faculty 0) w db1 in
  r = Ok "Resource and related content deleted successfully" /\
  resources db2 !! 0%N = None /\
  transcripts db2 = [] /\
  search_video_content w db2 "lecture" (Some 0%N) 5 <> [].
Proof.
  vm_compute. repeat split. discriminate.
Qed.

Lemma filter_after_remove {A} (f : A -> bool) (l : list A) :
  List.filter f (List.filter (fun x => negb (f x)) l) = [].
Proof.
  induction l as [| x l IH]; [reflexivity |].
  cbn. destruct (f x) eqn:Hx; cbn; [exact IH |]. rewrite Hx. exact IH.
Qed.

(** C9 (amended): deleting an existing resource as the owner of its course
    with role FACULTY, or an existing video as the owner of its course,
    succeeds; it removes the record and every transcript owned by it, and
    leaves the vector store unchanged, so its embeddings remain. *)
Theorem delete_keeps_embeddings (cat : Catalog) (u : User) (c : Ctx) (db : DB) (id : oid)
    (d : Doc) (course : Val) :
  (resources db !! id = Some d -> d !! "course_id" = Some course ->
   is_course_owner cat u course = true -> user_role u = "FACULTY" ->
   let '(r, db') := delete_resource cat u id c db in
   r = Ok "Resource and related content deleted successfully" /\
   resources db' !! id = None /\
   List.filter (owns "resource_id" id) (transcripts db') = [] /\
   store db' = store db) /\
  (videos db !! id = Some d -> d !! "course_id" = Some course ->
   is_course_owner cat u course = true ->
   let '(r, db') := delete_video cat u id c db in
   r = Ok "Video and related content deleted successfully" /\
   videos db' !! id = None /\
   List.filter (owns "video_id" id) (transcripts db') = [] /\
   store db' = store db).
Proof.
  split.
  - intros Hd Hc Ho Hf.
    assert (Hf' : String.eqb (user_role u) "FACULTY" = true) by (rewrite Hf; reflexivity).
    unfold delete_resource, get_field, delete_one, delete_transcripts, delete_summaries,
      delete_quizzes; unfold_M. cbn. rewrite Hd; cbn. rewrite Hc; cbn. rewrite Ho, Hf'; cbn.
    rewrite Hd; cbn.
    repeat split.
    + apply lookup_delete_eq.
    + apply (filter_after_remove (owns "resource_id" id)).
  - intros Hd Hc Ho.
    unfold delete_video, get_field, delete_one, delete_transcripts, delete_summaries;
      unfold_M. cbn. rewrite Hd; cbn. rewrite Hc; cbn. rewrite Ho; cbn.
    rewrite Hd; cbn.
    repeat split.
    + apply lookup_delete_eq.
    + apply (filter_after_remove (owns "video_id" id)).
Qed.

Lemma delete_keeps_embeddings_witness :
  let db := set_videos {[ 0%N := {[ "course_id" := VId 7 ]} ]}
              (set_resources {[ 0%N := {[ "course_id" := VId 7 ]} ]} empty_db) in
  resources db !! 0%N = Some {[ "course_id" := VId 7 ]} /\
  videos db !! 0%N = Some {[ "course_id" := VId 7 ]} /\
  is_course_owner demo_catalog faculty (VId 7) = true /\
  user_role faculty = "FACULTY" /\
  ((resources db !! 0%N = Some {[ "course_id" := VId 7 ]} ->
    ({[ "course_id" := VId 7 ]} : Doc) !! "course_id" = Some (VId 7) ->
    is_course_owner demo_catalog faculty (VId 7) = true -> user_role faculty = "FACULTY" ->
    let '(r, db') := delete_resource demo_catalog faculty 0 (mkCtx (demo_world true) true) db in
    r = Ok "Resource and related content deleted successfully" /\
    resources db' !! 0%N = None /\
    List.filter (owns "resource_id" 0) (transcripts db') = [] /\
    store db' = store db) /\
   (videos db !! 0%N = Some {[ "course_id" := VId 7 ]} ->
    ({[ "course_id" := VId 7 ]} : Doc) !! "course_id" = Some (VId 7) ->
    is_course_owner demo_catalog faculty (VId 7) = true ->
    let '(r, db') := delete_video demo_catalog faculty 0 (mkCtx (demo_world true) true) db in
    r = Ok "Video and related content deleted successfully" /\
    videos db' !! 0%N = None /\
    List.filter (owns "video_id" 0) (transcripts db') = [] /\
    store db' = store db)).
Proof.
  cbv zeta.
  split; [reflexivity |]. split; [reflexivity |]. split; [reflexivity |].
  split; [reflexivity |].
  apply delete_keeps_embeddings.
Defined.

(** ** Retrieval *)

Lemma in_insert_by (q : list Z) (e x : Entry) (l : list Entry) :
  In x (insert_by q e l) <-> x = e \/ In x l.
Proof.
  induction l as [| e' l IH]; cbn.
  - intuition.
  - destruct (Z.leb _ _); cbn; [intuition |].
    rewrite IH. intuition.
Qed.

Lemma in_rank_by (q : list Z) (x : Entry) (l : list Entry) :
  In x (rank_by q l) <-> In x l.
Proof.
  induction l as [| e l IH]; cbn; [tauto |].
  rewrite in_insert_by, IH. intuition.
Qed.

Lemma in_firstn_in {A} (n : nat) (x : A) (l : list A) : In x (firstn n l) -> In x l.
Proof.
  intros H. rewrite <- (firstn_skipn n l). apply in_or_app. left. exact H.
Qed.

Lemma in_chroma_query (s : list Entry) (q : list Z) (k : nat) (wc : option oid) (e : Entry) :
  In e (chroma_query s q k wc) -> In e s /\ where_ok wc e = true.
Proof.
  unfold chroma_query. intros H.
  apply in_firstn_in, in_rank_by, filter_In in H. exact H.
Qed.

Lemma in_search (w : World) (db : DB) (q : string) (wc : option oid) (k : nat) (r : string * Meta) :
  In r (search_video_content w db q wc k) ->
  exists e, In e (store db) /\ where_ok wc e = true /\ en_document e = r.1 /\ en_metadata e = r.2.
Proof.
  unfold search_video_content. intros H.
  apply in_map_iff in H as [e [<- He]].
  apply in_chroma_query in He as [Hs Hw].
  exists e. auto.
Qed.

(** C7: a search returns at most [top_k] results; with a [video_id]
    filter every result carries that video id; without one it is the
    nearest [top_k] entries of the whole store, whatever resource they come
    from; a filter that matches nothing gives the empty list.  The module
    chat keeps at most 5 results, each from an entry whose video belongs to
    the module. *)
Theorem search_contract (w : World) (db : DB) (q : string) (k : nat) :
  (forall wc, List.length (search_video_content w db q wc k) <= k)%nat /\
  (forall v r, In r (search_video_content w db q (Some v) k) ->
     md_video_id r.2 = Some v /\
     exists e, In e (store db) /\ en_document e = r.1 /\ en_metadata e = r.2) /\
  search_video_content w db q None k
    = map (fun e => (en_document e, en_metadata e)) (firstn k (rank_by (embed w q) (store db))) /\
  (forall wc, (forall e, In e (store db) -> where_ok wc e = false) ->
     search_video_content w db q wc k = []) /\
  (forall m, (List.length (module_chunks w db m q) <= 5)%nat /\
     forall c, In c (module_chunks w db m q) ->
       exists e v, In e (store db) /\ en_document e = c /\
                   md_video_id (en_metadata e) = Some v /\ In v (module_video_ids db m)).
Proof.
  split; [| split; [| split; [| split]]].
  - intros wc. unfold search_video_content, chroma_query.
    rewrite length_map. apply firstn_le_length.
  - intros v r Hr.
    destruct (in_search w db q (Some v) k r Hr) as [e [He [Hw [Hd Hm]]]].
    cbn in Hw. rewrite <- Hm.
    destruct (md_video_id (en_metadata e)) as [v' |] eqn:Hv; [| discriminate].
    apply N.eqb_eq in Hw. subst v'. split; [reflexivity |]. eauto.
  - unfold search_video_content, chroma_query. f_equal. f_equal. f_equal.
    induction (store db) as [| e s IH]; cbn; [reflexivity | now rewrite IH].
  - intros wc Hnone. unfold search_video_content, chroma_query.
    assert (Hf : List.filter (where_ok wc) (store db) = []).
    { induction (store db) as [| e s IH]; cbn; [reflexivity |].
      rewrite Hnone by (left; reflexivity). apply IH. intros e' He'. apply Hnone. right. exact He'. }
    rewrite Hf. destruct k; reflexivity.
  - intros m. unfold module_chunks. split.
    + rewrite length_map.
      transitivity (List.length (search_video_content w db q None 5)).
      * apply filter_length_le.
      * unfold search_video_content, chroma_query. rewrite length_map. apply firstn_le_length.
    + intros c Hc.
      apply in_map_iff in Hc as [r [<- Hr]].
      apply filter_In in Hr as [Hr Hp].
      destruct (in_search w db q None 5 r Hr) as [e [He [_ [Hd Hm]]]].
      destruct (md_video_id r.2) as [v |] eqn:Hv; [| discriminate].
      apply bool_decide_eq_true, list_elem_of_In in Hp.
      exists e, v. rewrite Hm. auto.
Qed.

Lemma search_contract_witness :
  let w := demo_world true in
  let db := two_module_db in
  ((forall wc, List.length (search_video_content w db "vectors" wc 3) <= 3)%nat /\
   (forall v r, In r (search_video_content w db "vectors" (Some v) 3) ->
      md_video_id r.2 = Some v /\
      exists e, In e (store db) /\ en_document e = r.1 /\ en_metadata e = r.2) /\
   search_video_content w db "vectors" None 3
     = map (fun e => (en_document e, en_metadata e)) (firstn 3 (rank_by (embed w "vectors") (store db))) /\
   (forall wc, (forall e, In e (store db) -> where_ok wc e = false) ->
      search_video_content w db "vectors" wc 3 = []) /\
   (forall m, (List.length (module_chunks w db m "vectors") <= 5)%nat /\
      forall c, In c (module_chunks w db m "vectors") ->
        exists e v, In e (store db) /\ en_document e = c /\
                    md_video_id (en_metadata e) = Some v /\ In v (module_video_ids db m))) /\
  map fst (search_video_content w db "vectors" (Some 1%N) 3) = ["b1"; "b0"] /\
  module_chunks w db 6 "vectors" = ["b1"; "b0"].
Proof.
  cbv zeta. split; [apply search_contract |].
  split; vm_compute; reflexivity.
Defined.

(** ** The chunker *)

Module ChunkerFacts.
Import Chunker.

Lemma string_app_cons (c : ascii) (s t : string) : (String c s ++ t)%string = String c (s ++ t).
Proof. reflexivity. Qed.

Lemma string_app_nil_l (s : string) : ("" ++ s)%string = s.
Proof. reflexivity. Qed.

Lemma string_app_nil_r (s : string) : (s ++ "")%string = s.
Proof. induction s as [| c s IH]; [reflexivity |]. rewrite string_app_cons, IH. reflexivity. Qed.

Lemma string_app_assoc (a b c : string) : ((a ++ b) ++ c)%string = (a ++ (b ++ c))%string.
Proof. induction a as [| x a IH]; [reflexivity |]. rewrite !string_app_cons, IH. reflexivity. Qed.

Lemma no_space_app (a b : string) : no_space (a ++ b) = no_space a && no_space b.
Proof.
  induction a as [| c a IH]; [reflexivity |].
  rewrite string_app_cons. cbn [no_space]. rewrite IH. now rewrite Bool.andb_assoc.
Qed.

Lemma split_acc_word (w cur rest : string) :
  no_space w = true -> Py.split_acc cur (w ++ rest) = Py.split_acc (cur ++ w) rest.
Proof.
  revert cur. induction w as [| c w IH]; intros cur Hw.
  - now rewrite string_app_nil_l, string_app_nil_r.
  - cbn [no_space] in Hw.
    apply andb_prop in Hw as [Hc Hw]. apply Bool.negb_true_iff in Hc.
    rewrite string_app_cons. cbn [Py.split_acc]. rewrite Hc, IH by exact Hw.
    now rewrite string_app_assoc.
Qed.

Lemma split_single (w : string) : word_ok w -> Py.split w = [w].
Proof.
  intros [Hne Hw]. unfold Py.split.
  rewrite <- (string_app_nil_r w) at 1. rewrite split_acc_word by exact Hw.
  rewrite string_app_nil_l. cbn [Py.split_acc].
  destruct (String.eqb_spec w ""); [contradiction | reflexivity].
Qed.

(** Splitting the space-joined words gives the words back. *)
Lemma split_join (ws : list string) : Forall word_ok ws -> Py.split (Py.join ws) = ws.
Proof.
  induction ws as [| w ws IH]; intros Hf; [reflexivity |].
  inversion Hf as [| ? ? Hw Hf']; subst.
  destruct ws as [| w2 ws].
  - apply split_single, Hw.
  - change (Py.join (w :: w2 :: ws)) with (w ++ String " " (Py.join (w2 :: ws)))%string.
    destruct Hw as [Hne Hns].
    unfold Py.split. rewrite split_acc_word by exact Hns.
    rewrite string_app_nil_l. cbn [Py.split_acc Py.is_space].
    destruct (String.eqb_spec w ""); [contradiction |].
    cbn. f_equal. apply IH, Hf'.
Qed.

Lemma split_acc_words_ok (s cur : string) :
  no_space cur = true -> Forall word_ok (Py.split_acc cur s).
Proof.
  revert cur. induction s as [| c s IH]; intros cur Hc; cbn [Py.split_acc].
  - destruct (String.eqb_spec cur ""); constructor; [split; assumption | constructor].
  - destruct (Py.is_space c) eqn:Hsp.
    + apply Forall_app. split.
      * destruct (String.eqb_spec cur ""); constructor; [split; assumption | constructor].
      * apply IH. reflexivity.
    + apply IH. rewrite no_space_app, Hc. cbn. now rewrite Hsp.
Qed.

Lemma split_words_ok (s : string) : Forall word_ok (Py.split s).
Proof. apply split_acc_words_ok. reflexivity. Qed.

Lemma in_skipn_in {A} (j : nat) (x : A) (l : list A) : In x (skipn j l) -> In x l.
Proof.
  intros H. rewrite <- (firstn_skipn j l). apply in_or_app. right. exact H.
Qed.

Lemma Forall_window {A} (P : A -> Prop) (m j : nat) (l : list A) :
  Forall P l -> Forall P (firstn m (skipn j l)).
Proof.
  rewrite !List.Forall_forall. intros H x Hx.
  apply H, (in_skipn_in j), (in_firstn_in m), Hx.
Qed.

(** Every window is a run of consecutive words. *)
Lemma windows_in (fuel : nat) (ws : list string) (m st : nat) (a : list string) :
  In a (windows fuel ws m st) -> exists j, a = firstn m (skipn j ws).
Proof.
  revert ws. induction fuel as [| f IH]; intros ws H; [destruct H |].
  cbn in H. destruct ws as [| x xs]; [destruct H |].
  destruct H as [<- | H]; [exists 0%nat; reflexivity |].
  destruct (Nat.leb _ m); [destruct H |].
  destruct (IH _ H) as [j ->]. exists (j + st)%nat. now rewrite skipn_skipn.
Qed.

Lemma windows_first (fuel : nat) (ws : list string) (m st : nat) (b : list string) :
  nth_error (windows fuel ws m st) 0 = Some b -> b = firstn m ws.
Proof.
  destruct fuel as [| f]; cbn; [discriminate |].
  destruct ws as [| x xs]; cbn; [discriminate |]. congruence.
Qed.

(** Two consecutive windows: the first is full and the second starts
    [st] words later. *)
Lemma windows_consecutive (fuel : nat) (ws : list string) (m st i : nat) (a b : list string) :
  nth_error (windows fuel ws m st) i = Some a ->
  nth_error (windows fuel ws m st) (S i) = Some b ->
  exists j, a = firstn m (skipn j ws) /\ b = firstn m (skipn st (skipn j ws)) /\
            (m < List.length (skipn j ws))%nat.
Proof.
  revert ws i. induction fuel as [| f IH]; intros ws i Ha Hb; [destruct i; discriminate |].
  cbn in Ha, Hb. destruct ws as [| x xs]; [destruct i; discriminate |].
  destruct (Nat.leb (List.length (x :: xs)) m) eqn:Hlen.
  - destruct i as [| i]; cbn in Hb; [discriminate | destruct i; discriminate].
  - apply Nat.leb_gt in Hlen.
    destruct i as [| i].
    + cbn in Ha, Hb. injection Ha as <-.
      exists 0%nat. cbn [skipn]. split; [reflexivity |]. split; [| exact Hlen].
      exact (windows_first _ _ _ _ _ Hb).
    + cbn in Ha, Hb.
      destruct (IH _ _ Ha Hb) as [j [Ha' [Hb' Hl]]].
      exists (j + st)%nat. rewrite <- skipn_skipn. auto.
Qed.

Lemma chunk_nth (t : string) (m ov i : nat) (c : string) :
  nth_error (chunk t m ov) i = Some c ->
  exists a, nth_error (chunk_words (Py.split t) m ov) i = Some a /\ c = Py.join a.
Proof.
  unfold chunk. rewrite nth_error_map. intros H.
  destruct (nth_error _ i) as [a |]; [| discriminate].
  injection H as <-. eauto.
Qed.

End ChunkerFacts.

(** C6 (modelled from the spec, see [Chunker]): the chunker is a function of
    the text's whitespace-delimited words only; empty text gives no chunk;
    a text of one to [maxw] words gives exactly one chunk, its words joined;
    every chunk's words are a run of consecutive words of the text, at most
    [maxw] of them; and with [ov < maxw], each chunk after the first begins
    with the last [ov] words of the previous chunk, which is full. *)
Theorem chunk_contract (t : string) (m ov : nat) :
  (forall t', Py.split t' = Py.split t -> Chunker.chunk t' m ov = Chunker.chunk t m ov) /\
  (Py.split t = [] -> Chunker.chunk t m ov = []) /\
  ((1 <= List.length (Py.split t) <= m)%nat -> Chunker.chunk t m ov = [Py.join (Py.split t)]) /\
  (forall c, In c (Chunker.chunk t m ov) ->
     exists j, Py.split c = firstn m (skipn j (Py.split t))) /\
  ((ov < m)%nat -> forall i c1 c2,
     nth_error (Chunker.chunk t m ov) i = Some c1 ->
     nth_error (Chunker.chunk t m ov) (S i) = Some c2 ->
     List.length (Py.split c1) = m /\
     firstn ov (Py.split c2) = skipn (List.length (Py.split c1) - ov) (Py.split c1)).
Proof.
  pose proof (ChunkerFacts.split_words_ok t) as Hok.
  split; [| split; [| split; [| split]]].
  - intros t' Ht. unfold Chunker.chunk. now rewrite Ht.
  - intros Ht. unfold Chunker.chunk, Chunker.chunk_words. now rewrite Ht.
  - intros Hlen. unfold Chunker.chunk, Chunker.chunk_words.
    destruct (Py.split t) as [| w ws] eqn:Ht; cbn [List.length] in Hlen; [lia |].
    cbn [List.length Chunker.windows].
    replace (Nat.leb (S (List.length ws)) m) with true
      by (symmetry; apply Nat.leb_le; lia).
    cbn [map]. rewrite firstn_all2 by (cbn [List.length]; lia). reflexivity.
  - intros c Hc. unfold Chunker.chunk in Hc. apply in_map_iff in Hc as [a [<- Ha]].
    unfold Chunker.chunk_words in Ha.
    destruct (ChunkerFacts.windows_in _ _ _ _ _ Ha) as [j ->].
    exists j. apply ChunkerFacts.split_join, ChunkerFacts.Forall_window, Hok.
  - intros Hov i c1 c2 H1 H2.
    destruct (ChunkerFacts.chunk_nth _ _ _ _ _ H1) as [a [Ha ->]].
    destruct (ChunkerFacts.chunk_nth _ _ _ _ _ H2) as [b [Hb ->]].
    unfold Chunker.chunk_words in Ha, Hb.
    destruct (ChunkerFacts.windows_consecutive _ _ _ _ _ _ _ Ha Hb) as [j [-> [-> Hl]]].
    set (X := skipn j (Py.split t)) in *.
    assert (HX : Forall word_ok X)
      by (rewrite List.Forall_forall in Hok |- *;
          intros x Hx; apply Hok, (ChunkerFacts.in_skipn_in j), Hx).
    rewrite (ChunkerFacts.split_join (firstn m X))
      by (rewrite <- (skipn_O X); apply ChunkerFacts.Forall_window, HX).
    rewrite ChunkerFacts.split_join by (apply ChunkerFacts.Forall_window, HX).
    assert (Hm : List.length (firstn m X) = m) by (rewrite length_firstn; lia).
    split; [exact Hm |]. rewrite Hm.
    unfold Chunker.step. replace (Nat.max 1 (m - ov)) with (m - ov)%nat by lia.
    rewrite skipn_firstn_comm, firstn_firstn.
    replace (m - (m - ov))%nat with ov by lia.
    now rewrite Nat.min_l by lia.
Qed.

Lemma chunk_contract_witness :
  Chunker.chunk ten_words 50 10 = [Py.join (Py.split ten_words)] /\
  List.length (Chunker.chunk long_text 50 10) = 3%nat /\
  List.length (Py.split (nth 0 (Chunker.chunk long_text 50 10) "")) = 50%nat /\
  firstn 10 (Py.split (nth 1 (Chunker.chunk long_text 50 10) "")) =
  skipn 40 (Py.split (nth 0 (Chunker.chunk long_text 50 10) "")).
Proof.
  destruct (chunk_contract ten_words 50 10) as (_ & _ & Hone & _ & _).
  destruct (chunk_contract long_text 50 10) as (_ & _ & _ & _ & Hov).
  destruct (Hov ltac:(lia) 0%nat (nth 0 (Chunker.chunk long_text 50 10) "")
              (nth 1 (Chunker.chunk long_text 50 10) ""))
    as [Hl He]; [vm_compute; reflexivity | vm_compute; reflexivity |].
  split.
  { apply Hone.
    assert (List.length (Py.split ten_words) = 10%nat) as -> by (vm_compute; reflexivity).
    lia. }
  split; [vm_compute; reflexivity |].
  split; [exact Hl |]. rewrite He, Hl. reflexivity.
Defined.

(** ** Progress of a processing attempt *)

Lemma add_chunks_keeps_writes (v : oid) (seg : Segment) (i : nat) (chunks : list string)
    (c : Ctx) (db : DB) :
  exists db', add_chunks v seg i chunks c db = (Ok tt, db') /\
              writes db' = writes db /\ videos db' = videos db.
Proof.
  revert i db. induction chunks as [| ch rest IH]; intros i db; cbn [add_chunks].
  - eexists; split; [| split]; reflexivity.
  - unfold bind, ask_world, collection_add, fresh_id, get_db, put_db. cbn.
    destruct (IH (S i) (set_store (store db ++ [mkEntry (next_id db) (embed (world c) ch) ch
                 (mkMeta "video_transcript" (Some v) (seg_start seg) (seg_end seg) i)])
                 (mkDB (videos db) (resources db) (transcripts db) (summaries db)
                       (quizzes db) (store db) (queue db) (writes db) (next_id db + 1))))
      as (db' & -> & Hw & Hv).
    eexists; split; [reflexivity | split; assumption].
Qed.

Lemma add_video_transcript_to_rag_keeps_writes (v : oid) (segs : list Segment) (c : Ctx) (db : DB) :
  exists db', add_video_transcript_to_rag v segs c db = (Ok tt, db') /\
              writes db' = writes db /\ videos db' = videos db.
Proof.
  revert db. induction segs as [| seg rest IH]; intros db; cbn [add_video_transcript_to_rag].
  - eexists; split; [| split]; reflexivity.
  - unfold bind at 1.
    destruct (String.eqb (Py.strip (seg_text seg)) "").
    + destruct (IH db) as (db' & Hr & Hw). cbn. rewrite Hr. eauto.
    + destruct (add_chunks_keeps_writes v seg 0 (Chunker.chunk (seg_text seg) chunk_size chunk_overlap) c db)
        as (db1 & Hr1 & Hw1 & Hv1).
      rewrite Hr1. destruct (IH db1) as (db' & Hr & Hw & Hv). rewrite Hr.
      eexists; split; [reflexivity | split; congruence].
Qed.

(** The update commands of one attempt, as seen in the write log. *)
Ltac run_sym H :=
  repeat progress (cbn -[add_video_transcript_to_rag]; rewrite ?H, ?lookup_insert_eq).

Ltac fin_writes :=
  eexists; split; [rewrite <- ?app_assoc; reflexivity |];
  unfold progress_writes, status_writes, video_updates; cbn; rewrite ?N.eqb_refl; cbn.

(** The outcomes of [process_video_for_transcription] and [local_content]. *)
Ltac split_transcription :=
  repeat match goal with
  | |- context [audio_converted ?ww ?p] => destruct (audio_converted ww p)
  | |- context [duration_of ?ww ?p] => destruct (duration_of ww p)
  | |- context [Qeq_bool ?d 0] => destruct (Qeq_bool d 0)
  | |- context [Py.truthy (transcribe ?ww ?p)] => destruct (Py.truthy (transcribe ww p))
  | |- context [String.eqb (default "" (transcribe ?ww ?p)) ""] =>
      destruct (String.eqb (default "" (transcribe ww p)) "")
  end.

(** The [status] and [progress] of the record after the last update. *)
Ltac final_fields :=
  unfold doc_field; rewrite lookup_insert_eq; cbn [mbind option_bind];
  split;
  [ rewrite ?lookup_insert_ne by discriminate; apply lookup_insert_eq
  | rewrite ?lookup_insert_ne by discriminate; rewrite ?lookup_delete_ne by discriminate;
    apply lookup_delete_eq ].

Lemma task_attempt_writes (w : World) (db : DB) (id : oid) (ref : string) :
  let '(r, db') := run_task (process_video_task id ref) w db in
  exists ws, writes db' = (writes db ++ ws)%list /\
  match r with
  | Ok (TaskSuccess _ _ _ _) =>
      progress_writes id ws = [0;30;60;80]%Z /\
      status_writes id ws = ["PROCESSING";"PROCESSING";"PROCESSING";"PROCESSING";"COMPLETE";"COMPLETE"] /\
      doc_field (videos db') id "status" = Some (VStr "COMPLETE") /\
      doc_field (videos db') id "progress" = None
  | Ok (TaskFailed _ _) =>
      exists n, (n <= 4)%nat /\
      progress_writes id ws = firstn n [0;30;60;80]%Z /\
      status_writes id ws = (repeat "PROCESSING" n ++ ["FAILED"])%list
  | Err _ => False
  end.
Proof.
  unfold process_video_task, async_db_operation, update_video_status, add_video_content_to_rag,
    process_video_for_transcription, local_content, insert_transcript.
  unfold_M.
  destruct (videos db !! id) as [d |] eqn:Hd; run_sym Hd.
  2: { fin_writes. exists 0%nat. split; [lia | split; reflexivity]. }
  destruct (d !! "storage_url") as [url |] eqn:Hu; run_sym Hd.
  2: { fin_writes. exists 0%nat. split; [lia | split; reflexivity]. }
  destruct (val_is _ "drive"); [| destruct (negb (val_truthy url))]; run_sym Hd.
  all: try match goal with |- context [file_exists ?ww ?p] => destruct (file_exists ww p) end;
    run_sym Hd.
  all: do 3 (split_transcription; run_sym Hd).
  all: try (fin_writes; exists 1%nat; split; [lia | split; reflexivity]).
  all: destruct (embed_ok w); run_sym Hd.
  all: try (fin_writes; exists 3%nat; split; [lia | split; reflexivity]).
  all: match goal with
  | |- context [add_video_transcript_to_rag ?v ?s ?c ?d] =>
      pose proof (add_video_transcript_to_rag_keeps_writes v s c d) as HH
  end.
  all: destruct HH as [db1 [Hr [Hw Hv]]]; rewrite Hr;
    repeat progress (cbn -[add_video_transcript_to_rag]; rewrite ?Hd, ?Hw, ?Hv, ?lookup_insert_eq).
  all: fin_writes; split; [reflexivity|]; split; [reflexivity|]; final_fields.
Qed.

Ltac rag_tail H :=
  destruct (embed_ok _); run_sym H;
  [ match goal with
    | |- context [add_video_transcript_to_rag ?v ?s ?c ?d] =>
        let HH := fresh "HH" in
        pose proof (add_video_transcript_to_rag_keeps_writes v s c d) as HH;
        let db1 := fresh "db" in let Hr := fresh "Hr" in let Hw := fresh "Hw" in let Hv := fresh "Hv" in
        destruct HH as [db1 [Hr [Hw Hv]]]; rewrite Hr;
        repeat progress (cbn -[add_video_transcript_to_rag]; rewrite ?H, ?Hw, ?Hv, ?lookup_insert_eq);
        fin_writes; split; [reflexivity|]; split; [reflexivity|]; final_fields
    end
  | fin_writes; exists 3%nat; split; [lia | split; reflexivity] ].

Lemma sync_attempt_writes (w : World) (db : DB) (course : oid) (module : option oid)
    (title url st : string) :
  let '(r, db') := run_route (upload_video_sync course module title url st) w db in
  exists ws, writes db' = (writes db ++ ws)%list /\
  match r with
  | Ok _ =>
      progress_writes (next_id db) ws = [0;30;60;80]%Z /\
      status_writes (next_id db) ws = ["PROCESSING";"PROCESSING";"PROCESSING";"PROCESSING";"COMPLETE";"COMPLETE"] /\
      doc_field (videos db') (next_id db) "status" = Some (VStr "COMPLETE") /\
      doc_field (videos db') (next_id db) "progress" = None
  | Err _ =>
      exists n, (n <= 4)%nat /\
      progress_writes (next_id db) ws = firstn n [0;30;60;80]%Z /\
      status_writes (next_id db) ws = (repeat "PROCESSING" n ++ ["FAILED"])%list
  end.
Proof.
  unfold upload_video_sync, video_sync_body, sync_failure, update_video_status, add_video_content_to_rag,
    process_video_for_transcription, local_content, insert_transcript.
  unfold_M.
  destruct (String.eqb st "drive"); [| destruct (String.eqb url "")].
  - run_sym (@eq_refl nat 0). rag_tail (@eq_refl nat 0).
  - run_sym (@eq_refl nat 0). fin_writes; exists 1%nat; split; [lia | split; reflexivity].
  - destruct (file_exists w url) eqn:Hfe; run_sym Hfe.
    + do 3 (split_transcription; run_sym Hfe).
      all: first [ fin_writes; exists 1%nat; split; [lia | split; reflexivity] | rag_tail Hfe ].
    + fin_writes; exists 1%nat; split; [lia | split; reflexivity].
Qed.

(** C8, counterexample: a successful queued attempt on a local video writes
    the progress values 0, 30, 60 and 80 and no 100: the COMPLETE write
    carries no progress and removes the field. *)
Lemma progress_never_reaches_100 :
  let w := demo_world true in
  let url := "uploads/videos/lecture.mp4" in
  let '(_, db1) := run_route (upload_video 1 None "Lecture 1" url "local") w empty_db in
  let '(r, db2) := run_task (process_video_task 0 url) w db1 in
  r = Ok (TaskSuccess 0 1 30 4) /\
  progress_writes 0 (writes db2) = [0; 30; 60; 80]%Z /\
  ~ In 100%Z (progress_writes 0 (writes db2)) /\
  doc_field (videos db2) 0 "status" = Some (VStr "COMPLETE") /\
  doc_field (videos db2) 0 "progress" = None.
Proof.
  vm_compute. split; [reflexivity |]. split; [reflexivity |].
  split; [intros H; repeat (destruct H as [H | H]; [discriminate H |]); exact H |].
  split; reflexivity.
Qed.

(** C8 (amended): in every processing attempt, queued (the Celery task) or
    synchronous ([upload_video_sync]), the attempt only appends to the write
    log, and its writes on the video are: on success, the progress values
    0, 30, 60, 80 (non-decreasing, no 100 is written) with statuses
    PROCESSING four times then COMPLETE twice, after which the record is
    COMPLETE and has no [progress] field; on failure, the first [n]
    stages' writes (progress 0, 30, 60, 80 cut at [n], all PROCESSING) and
    then one FAILED write, which is the last status written. *)
Theorem progress_sequence :
  (forall (w : World) (db : DB) (id : oid) (ref : string),
     let '(r, db') := run_task (process_video_task id ref) w db in
     exists ws, writes db' = (writes db ++ ws)%list /\
     match r with
     | Ok (TaskSuccess _ _ _ _) =>
         progress_writes id ws = [0;30;60;80]%Z /\
         status_writes id ws = ["PROCESSING";"PROCESSING";"PROCESSING";"PROCESSING";"COMPLETE";"COMPLETE"] /\
         doc_field (videos db') id "status" = Some (VStr "COMPLETE") /\
         doc_field (videos db') id "progress" = None
     | Ok (TaskFailed _ _) =>
         exists n, (n <= 4)%nat /\
         progress_writes id ws = firstn n [0;30;60;80]%Z /\
         status_writes id ws = (repeat "PROCESSING" n ++ ["FAILED"])%list
     | Err _ => False
     end) /\
  (forall (w : World) (db : DB) (course : oid) (module : option oid) (title url st : string),
     let '(r, db') := run_route (upload_video_sync course module title url st) w db in
     exists ws, writes db' = (writes db ++ ws)%list /\
     match r with
     | Ok _ =>
         progress_writes (next_id db) ws = [0;30;60;80]%Z /\
         status_writes (next_id db) ws = ["PROCESSING";"PROCESSING";"PROCESSING";"PROCESSING";"COMPLETE";"COMPLETE"] /\
         doc_field (videos db') (next_id db) "status" = Some (VStr "COMPLETE") /\
         doc_field (videos db') (next_id db) "progress" = None
     | Err _ =>
         exists n, (n <= 4)%nat /\
         progress_writes (next_id db) ws = firstn n [0;30;60;80]%Z /\
         status_writes (next_id db) ws = (repeat "PROCESSING" n ++ ["FAILED"])%list
     end).
Proof.
  split; [exact task_attempt_writes | exact sync_attempt_writes].
Qed.

(** * Further properties of the routes and the indexer *)

Ltac fin :=
  repeat match goal with
         | H : (_ =? _)%N || _ = true |- _ =>
             apply orb_true_iff in H; destruct H as [H|H]; [apply N.eqb_eq in H|]
         | H : negb _ = false |- _ => apply negb_false_iff in H
         end;
  repeat split; intros; try discriminate; try reflexivity; eauto 10.

Ltac route_cases :=
  repeat (simpl; match goal with
                 | |- context [match ?x with _ => _ end] =>
                     lazymatch x with
                     | context [match _ with _ => _ end] => fail
                     | _ => destruct x eqn:?
                     end
                 end).

(** X1: [get_video] never writes to the database; a missing video gives the 500 error wrapping the 404 "Video not found", a success returns the stored video document to its course owner or an enrolled user, and every error is a 500. *)
Theorem get_video_outcome (cat : Catalog) (u : User) (id : oid) (w : World) (db : DB) :
  let '(r, db') := run_route (get_video cat u id) w db in
  db' = db /\
  (videos db !! id = None ->
   r = Err (HTTPException 500 "Error retrieving video: 404: Video not found")) /\
  match r with
  | Ok d =>
      videos db !! id = Some d /\
      exists c creator, d !! "course_id" = Some (VId c) /\
        course_rooms cat !! c = Some creator /\
        (creator = user_id u \/ enrolled cat (user_id u) c = true)
  | Err e => exists m, e = HTTPException 500 m
  end.
Proof.
  unfold get_video; unfold_M; unfold get_field, course_of, may_access, coll; simpl.
  route_cases; fin.
Qed.

(** X2: [update_video_transcript] never succeeds: whatever the input, the route ends in an HTTP 500 error and leaves the database unchanged. *)
Theorem update_video_transcript_fails (cat : Catalog) (u : User) (id : oid)
    (segments : list Doc) (w : World) (db : DB) :
  exists m, run_route (update_video_transcript cat u id segments) w db
            = (Err (HTTPException 500 m), db).
Proof.
  unfold update_video_transcript; unfold_M; unfold get_field, is_course_owner, course_of, coll; simpl.
  route_cases; eauto.
Qed.

Lemma remove_first_some {A} (p : A -> bool) (l l' : list A) :
  remove_first p l = Some l' ->
  exists l1 x l2, l = (l1 ++ x :: l2)%list /\ p x = true /\
    List.Forall (fun y => p y = false) l1 /\ l' = (l1 ++ l2)%list.
Proof.
  revert l'; induction l as [|y l IH]; intros l' H; simpl in H; [discriminate|].
  destruct (p y) eqn:Hp.
  - injection H as <-. exists [], y, l. auto.
  - destruct (remove_first p l) as [l''|] eqn:Hr; simpl in H; [|discriminate].
    injection H as <-. destruct (IH l'' eq_refl) as (l1 & x & l2 & -> & Hx & Hf & ->).
    exists (y :: l1), x, l2. auto.
Qed.

Lemma find_some_split {A} (p : A -> bool) (l : list A) (x : A) :
  List.find p l = Some x ->
  exists l1 l2, l = (l1 ++ x :: l2)%list /\ p x = true /\ List.Forall (fun y => p y = false) l1.
Proof.
  induction l as [|y l IH]; simpl; [discriminate|].
  destruct (p y) eqn:Hp.
  - intros [= <-]. exists [], l. auto.
  - intros H. destruct (IH H) as (l1 & l2 & -> & Hx & Hf). exists (y :: l1), l2. auto.
Qed.

(** X3: [delete_video_transcript] deletes exactly the earliest transcript of the video and nothing else on success; on failure the database is unchanged and the error is a 500. *)
Theorem delete_video_transcript_first (cat : Catalog) (u : User) (id : oid) (w : World) (db : DB) :
  let '(r, db') := run_route (delete_video_transcript cat u id) w db in
  match r with
  | Ok _ =>
      (exists v, videos db !! id = Some v /\ exists c, v !! "course_id" = Some c /\
                 is_course_owner cat u c = true) /\
      exists l1 t l2, transcripts db = (l1 ++ t :: l2)%list /\ owns "video_id" id t = true /\
        List.Forall (fun t' => owns "video_id" id t' = false) l1 /\
        db' = set_transcripts (l1 ++ l2) db
  | Err e => db' = db /\ exists m, e = HTTPException 500 m
  end.
Proof.
  unfold delete_video_transcript; unfold_M; unfold get_field, coll; simpl.
  route_cases; fin.
  apply remove_first_some in Heqo1. destruct Heqo1 as (l1 & x & l2 & H1 & H2 & H3 & ->).
  eauto 10.
Qed.

(** X4: [get_video_transcript] never writes; on success it returns the earliest transcript keyed by [video_id] for that video; every error is a 500. *)
Theorem get_video_transcript_earliest (cat : Catalog) (u : User) (id : oid) (w : World) (db : DB) :
  let '(r, db') := run_route (get_video_transcript cat u id) w db in
  db' = db /\
  match r with
  | Ok t =>
      tr_key t = "video_id" /\ tr_owner t = id /\
      exists l1 l2, transcripts db = (l1 ++ t :: l2)%list /\
        List.Forall (fun t' => owns "video_id" id t' = false) l1
  | Err e => exists m, e = HTTPException 500 m
  end.
Proof.
  unfold get_video_transcript; unfold_M; unfold get_field, course_of, may_access, coll; simpl.
  route_cases; fin;
  apply find_some_split in Heqo2; destruct Heqo2 as (l1 & l2 & H1 & H2 & H3);
  unfold owns in H2; apply andb_true_iff in H2; destruct H2 as [H2 H4];
  apply String.eqb_eq in H2; apply N.eqb_eq in H4; eauto.
Qed.

(** X5: [update_video] writes nothing when no field is given; on success the returned document carries the new title, published flag and published_at value and keeps every other field; on failure nothing is written and the error is a 500. *)
Theorem update_video_fields (cat : Catalog) (u : User) (id : oid) (title : option string)
    (published : option bool) (w : World) (db : DB) :
  let '(r, db') := run_route (update_video cat u id title published) w db in
  (title = None -> published = None -> db' = db) /\
  match r with
  | Ok d =>
      exists v, videos db !! id = Some v /\ videos db' !! id = Some d /\
        (exists c, v !! "course_id" = Some c /\ is_course_owner cat u c = true) /\
        d !! "title" = match title with Some t => Some (VStr t) | None => v !! "title" end /\
        d !! "published" = match published with Some b => Some (VBool b) | None => v !! "published" end /\
        d !! "published_at" = match published with Some true => Some VNow | _ => v !! "published_at" end /\
        (forall k, k <> "title" -> k <> "published" -> k <> "published_at" -> d !! k = v !! k)
  | Err e => db' = db /\ exists m, e = HTTPException 500 m
  end.
Proof.
  unfold update_video; unfold_M; unfold get_field, coll; simpl.
  destruct (videos db !! id) as [v|] eqn:Hv; simpl; [|fin].
  destruct (v !! "course_id") as [c|] eqn:Hc; simpl; [|fin].
  destruct (is_course_owner cat u c) eqn:Ho; simpl; [|fin].
  destruct title as [t|], published as [[|]|]; unfold_M; unfold video_update_data, coll;
    simpl; rewrite ?Hv; simpl; unfold set_coll, set_videos, set_writes; simpl;
    cbn [videos writes]; rewrite ?lookup_insert_eq.
  all: split; [intros; try discriminate; try reflexivity|].
  all: eexists; split; [reflexivity|]; cbn [videos]; rewrite ?lookup_insert_eq;
    split; [reflexivity|]; split; [eauto|].
  all: unfold apply_update; simpl.
  all: repeat split; try (intros k H1 H2 H3); simplify_map_eq; try reflexivity.
Qed.

(** X6: After [update_video_status], [get_video_processing_status] reports the new status, with progress, step and remaining time only for PROCESSING, and the stored error message (default "Processing failed") only for FAILED. *)
Theorem status_after_update (cat : Catalog) (u : User) (w : World) (db : DB) (id : oid)
    (v : Doc) (c creator : oid) (st : string) (p : Z) (step : string) (eta : Z)
    (Hv : videos db !! id = Some v) (Hc : v !! "course_id" = Some (VId c))
    (Hcr : course_rooms cat !! c = Some creator) (Ha : may_access cat u creator c = true) :
  let db1 := snd (run_task (update_video_status id st p step eta) w db) in
  fst (run_route (get_video_processing_status cat u id) w db1) =
  Ok (if String.eqb st "PROCESSING"
      then mkVideoProcessingStatus id (VStr st) (Some (VInt p)) (Some (VStr step))
             (Some (VInt eta)) None
      else mkVideoProcessingStatus id (VStr st) None None None
             (if String.eqb st "FAILED"
              then Some (default (VStr "Processing failed") (v !! "error_message"))
              else None)).
Proof.
  unfold update_video_status.
  destruct (String.eqb st "PROCESSING") eqn:Hp.
  - apply String.eqb_eq in Hp; subst st.
    unfold get_video_processing_status, get_field, course_of; unfold_M; unfold_M.
    unfold coll, set_coll, set_videos, set_writes, apply_update; simpl.
    rewrite Hv; simpl. rewrite lookup_insert_eq; simpl.
    simplify_map_eq. rewrite Ha. reflexivity.
  - unfold get_video_processing_status, get_field, course_of; unfold_M; unfold_M.
    unfold coll, set_coll, set_videos, set_writes, apply_update; simpl.
    rewrite Hv; simpl. rewrite lookup_insert_eq; simpl.
    simplify_map_eq. rewrite Ha; simpl. unfold val_is. rewrite Hp.
    destruct (String.eqb st "FAILED") eqn:Hf; simpl.
    + apply String.eqb_eq in Hf; subst st. simplify_map_eq. reflexivity.
    + reflexivity.
Qed.

Lemma module_video_ids_videos (db : DB) (m : oid) :
  module_video_ids db m = map fst (module_videos db m).
Proof. reflexivity. Qed.

Lemma video_out_eq (db : DB) (id : oid) (d : Doc) (c : Ctx) (db0 : DB) :
  video_out db (id, d) c db0 =
  (match d !! "title", d !! "status" with
   | Some t, Some st =>
       Ok (mkVideoOut id t (d !! "duration_seconds") st
             (default (VBool false) (d !! "published")) (d !! "published_at")
             (d !! "thumbnail_url")
             (existsb (owns "video_id" id) (transcripts db))
             (existsb (owned_by "video_id" id) (summaries db))
             (existsb (owned_by "video_id" id) (quizzes db)))
   | None, _ => Err (Exception "'title'")
   | Some _, None => Err (Exception "'status'")
   end, db0).
Proof.
  unfold video_out, get_field; unfold_M.
  destruct (d !! "title"), (d !! "status"); reflexivity.
Qed.

Lemma map_M_video_out (db : DB) (l : list (oid * Doc)) (c : Ctx) (db0 : DB) :
  let '(r, db') := map_M (video_out db) l c db0 in
  db' = db0 /\
  match r with
  | Ok outs => map vo_id outs = map fst l
  | Err e => exists id d, In (id, d) l /\
      ((d !! "title" = None /\ e = Exception "'title'") \/
       (d !! "status" = None /\ e = Exception "'status'"))
  end.
Proof.
  induction l as [|[id d] l IH]; cbn [map_M]; unfold ret; [auto|].
  unfold bind. rewrite video_out_eq.
  destruct (d !! "title") eqn:Ht; [|split; [reflexivity|]; exists id, d; simpl; auto].
  destruct (d !! "status") eqn:Hs; [|split; [reflexivity|]; exists id, d; simpl; auto].
  destruct (map_M (video_out db) l c db0) as [[outs|e] db'] eqn:Hm;
    destruct IH as [-> IH].
  - simpl. rewrite IH. auto.
  - split; [reflexivity|]. destruct IH as (id' & d' & Hin & He). exists id', d'. simpl. auto.
Qed.

Lemma find_module_spec (cat : Catalog) (s : string) :
  match find_module cat s with
  | Err e => Oid.object_id s = None /\ e = invalid_id s
  | Ok None => True
  | Ok (Some (i, md)) => Oid.object_id s = Some (Some i) /\ modules cat !! i = Some md
  end.
Proof.
  unfold find_module.
  destruct (Oid.object_id s) as [[i|]|] eqn:Hs; auto.
  destruct (modules cat !! i) eqn:Hm; simpl; auto.
Qed.

(** X7: [list_videos_by_module] never writes; on success the path parameter is an ObjectId and the route lists the first 100 videos of that module with [total] equal to their number (at most 100); its errors are [InvalidId] on a malformed id, the two 404s, the 403 or a KeyError on a missing title or status. *)
Theorem list_videos_by_module_outcome (cat : Catalog) (u : User) (s : string) (w : World) (db : DB) :
  let '(r, db') := run_route (list_videos_by_module cat u s) w db in
  db' = db /\
  match r with
  | Ok resp =>
      exists m, Oid.object_id s = Some (Some m) /\
      map vo_id (vl_videos resp) = firstn 100 (module_video_ids db m) /\
      vl_total resp = List.length (vl_videos resp) /\ (vl_total resp <= 100)%nat
  | Err e =>
      (Oid.object_id s = None /\ e = invalid_id s) \/
      e = HTTPException 404 "Module not found." \/
      e = HTTPException 404 "Module course not found." \/
      e = HTTPException 403 "Access denied." \/
      exists m id d, Oid.object_id s = Some (Some m) /\
        In id (module_video_ids db m) /\ videos db !! id = Some d /\
        ((d !! "title" = None /\ e = Exception "'title'") \/
         (d !! "status" = None /\ e = Exception "'status'"))
  end.
Proof.
  unfold list_videos_by_module.
  pose proof (find_module_spec cat s) as Hf.
  destruct (find_module cat s) as [[[m md]|]|e]; [| unfold_M; simpl; auto 6 | unfold_M; simpl; auto].
  destruct Hf as [Hs _].
  destruct (course_rooms cat !! mod_course md) as [creator|]; [|unfold_M; simpl; auto 6].
  destruct (may_access cat u creator (mod_course md)); simpl; [|unfold_M; simpl; auto 10].
  unfold run_route, bind at 1, get_db. unfold bind.
  pose proof (map_M_video_out db (firstn 100 (module_videos db m)) (mkCtx w true) db) as H.
  destruct (map_M (video_out db) (firstn 100 (module_videos db m)) (mkCtx w true) db)
    as [[outs|e] db'] eqn:Hm; destruct H as [-> H].
  - unfold ret. split; [reflexivity|]. exists m. split; [exact Hs|].
    cbn [vl_videos vl_total]. rewrite H, module_video_ids_videos, <- firstn_map.
    split; [reflexivity|]. rewrite <- (length_map vo_id), H, length_map. split; [reflexivity | apply firstn_le_length].
  - split; [reflexivity|]. right; right; right; right.
    destruct H as (id & d & Hin & He). exists m, id, d. split; [exact Hs|].
    apply in_firstn_in in Hin.
    split; [rewrite module_video_ids_videos; apply in_map_iff; exists (id, d); auto|].
    unfold module_videos in Hin. apply filter_In in Hin as [Hin _].
    apply list_elem_of_In, elem_of_map_to_list in Hin. auto.
Qed.

Lemma rev_firstn_rev {A} (n : nat) (l : list A) :
  rev (firstn n (rev l)) = skipn (List.length l - n) l.
Proof. rewrite firstn_rev, rev_involutive. reflexivity. Qed.

(** X8: [get_module_chat_history] returns, for a path parameter that is an ObjectId, the last 50 chats logged for that module by any user, oldest first, so at most 50; its errors are [InvalidId] on a malformed id, the two 404s and the 403. *)
Theorem module_chat_history_last_50 (cat : Catalog) (u : User) (s : string) :
  match get_module_chat_history cat u s with
  | Ok h =>
      exists m, Oid.object_id s = Some (Some m) /\
      let l := List.filter (fun ch => N.eqb (ch_module ch) m) (module_chats cat) in
      h = skipn (List.length l - 50) l /\ List.length h = Nat.min 50 (List.length l)
  | Err e =>
      (Oid.object_id s = None /\ e = invalid_id s) \/
      e = HTTPException 404 "Module not found." \/
      e = HTTPException 404 "Module course not found." \/
      e = HTTPException 403 "Access denied."
  end.
Proof.
  unfold get_module_chat_history.
  pose proof (find_module_spec cat s) as Hf.
  destruct (find_module cat s) as [[[m md]|]|e]; [| auto | auto].
  destruct Hf as [Hs _].
  destruct (course_rooms cat !! mod_course md) as [creator|]; [|auto].
  destruct (may_access cat u creator (mod_course md)); cbn [negb]; [|auto].
  exists m. split; [exact Hs|].
  rewrite rev_firstn_rev. split; [reflexivity|]. rewrite length_skipn. lia.
Qed.




(** X10: Without a RAG generator or a text generator, [module_specific_chat] on an existing module the caller may access appends the fallback answer to the log and then fails with a plain Exception. *)
Theorem module_chat_without_generator (svc : Services) (w : World) (db : DB) (cat : Catalog)
    (u : User) (s : string) (m : oid) (q : string) (md : ModuleDoc) (creator : oid)
    (Hs : Oid.object_id s = Some (Some m))
    (Hm : modules cat !! m = Some md) (Hc : course_rooms cat !! mod_course md = Some creator)
    (Ha : may_access cat u creator (mod_course md) = true) (Hq : q <> "")
    (Hg : has_rag_generator svc = false \/ has_generator svc = false) :
  let '(r, cat') := module_specific_chat svc w db cat u s q in
  (exists msg, r = Err (Exception msg)) /\
  exists e, module_chats cat' =
    (module_chats cat ++ [mkChat m (user_id u) (user_role u) q (chat_fallback md q e)])%list.
Proof.
  unfold module_specific_chat, find_module. rewrite Hs; cbn [option_map]. rewrite Hm; cbn [option_map].
  rewrite Hc, Ha. cbn [negb].
  apply String.eqb_neq in Hq. rewrite Hq.
  destruct Hg as [Hg|Hg]; rewrite Hg; cbn [negb];
    [|destruct (has_rag_generator svc); cbn [negb]];
    (split; [eexists; reflexivity | eexists; reflexivity]).
Qed.

(** X11: Every entry of [get_all_modules_chat_history] is a chat of the caller from the log, paired with its module name. *)
Theorem all_modules_history_own_chats (cat : Catalog) (u : User) :
  forall e, In e (get_all_modules_chat_history cat u) ->
    In e.2 (module_chats cat) /\ ch_user e.2 = user_id u /\
    e.1 = module_name_of cat (ch_module e.2).
Proof.
  intros e. unfold get_all_modules_chat_history.
  destruct (_ ++ _)%list; [simpl; tauto|].
  destruct (map fst _); [simpl; tauto|].
  intros Hin. apply in_map_iff in Hin as (ch & <- & Hin).
  apply in_rev in Hin. apply filter_In in Hin as [Hin Hp].
  apply andb_true_iff in Hp as [_ Hp]. apply N.eqb_eq in Hp. simpl. auto.
Qed.

(** X12: [get_course_modules_chat_history] returns the chats of every user, not only the caller: a logged chat is listed exactly when its module belongs to the course. *)
Theorem course_history_every_user (cat : Catalog) (u : User) (c : oid) (h : list (string * Chat))
    (H : get_course_modules_chat_history cat u c = Ok h) :
  forall ch, In ch (module_chats cat) ->
    (In (history_entry cat ch) h <->
     exists md, modules cat !! ch_module ch = Some md /\ mod_course md = c).
Proof.
  intros ch Hch. unfold get_course_modules_chat_history in H.
  destruct (course_rooms cat !! c) as [creator|]; [|discriminate].
  destruct (may_access cat u creator c); cbn [negb] in H; [|discriminate].
  assert (Hmod : (exists md, modules cat !! ch_module ch = Some md /\ mod_course md = c) <->
                 ch_module ch ∈ course_module_ids cat c).
  { unfold course_module_ids. rewrite list_elem_of_In, in_map_iff. split.
    - intros (md & Hl & Hc). exists (ch_module ch, md). split; [reflexivity|].
      apply filter_In. split; [apply list_elem_of_In, elem_of_map_to_list; exact Hl|].
      simpl. apply N.eqb_eq. exact Hc.
    - intros ([k md] & Hk & Hin). simpl in Hk; subst k.
      apply filter_In in Hin as [Hin Hc]. apply list_elem_of_In, elem_of_map_to_list in Hin.
      apply N.eqb_eq in Hc. eauto. }
  rewrite Hmod. destruct (course_module_ids cat c) as [|i ids] eqn:Hids.
  - injection H as <-. simpl. split; [tauto|]. intros Hi. inversion Hi.
  - injection H as <-. rewrite in_map_iff. split.
    + intros (ch' & He & Hin). apply in_rev, filter_In in Hin as [_ Hin].
      apply bool_decide_eq_true in Hin. unfold history_entry in He.
      injection He as _ ->. exact Hin.
    + intros Hin. exists ch. split; [reflexivity|]. rewrite <- in_rev, filter_In. split; [exact Hch|].
      apply bool_decide_eq_true. exact Hin.
Qed.


Lemma with_entries_app (db : DB) (l1 l2 : list Entry) :
  with_entries (with_entries db l1) l2 = with_entries db (l1 ++ l2).
Proof.
  unfold with_entries; simpl. rewrite <- app_assoc, length_app. f_equal. lia.
Qed.

Lemma add_chunks_entries (v : oid) (seg : Segment) (i : nat) (chunks : list string)
    (c : Ctx) (db : DB) :
  exists new, add_chunks v seg i chunks c db = (Ok tt, with_entries db new) /\
    map en_document new = chunks /\
    List.Forall (fun e => md_video_id (en_metadata e) = Some v /\
                          md_source (en_metadata e) = "video_transcript" /\
                          en_embedding e = embed (world c) (en_document e)) new.
Proof.
  revert i db; induction chunks as [|ch rest IH]; intros i db; simpl.
  - exists []. unfold ret, with_entries. split; [|auto].
    rewrite app_nil_r, N.add_0_r. destruct db; reflexivity.
  - unfold bind at 1, ask_world. unfold collection_add; unfold_M. simpl.
    set (e := mkEntry (next_id db) (embed (world c) ch) ch
                (mkMeta "video_transcript" (Some v) (seg_start seg) (seg_end seg) i)).
    destruct (IH (S i) (with_entries db [e])) as (new & Hrun & Hdoc & Hall).
    unfold with_entries in Hrun at 1; simpl in Hrun.
    exists (e :: new). unfold set_store. simpl.
    split; [change (e :: new) with ([e] ++ new)%list; rewrite <- with_entries_app; exact Hrun|].
    split; [simpl; congruence|].
    constructor; [simpl; auto|exact Hall].
Qed.

Lemma add_video_transcript_to_rag_run (v : oid) (segs : list Segment) (c : Ctx) (db : DB) :
  exists new, add_video_transcript_to_rag v segs c db = (Ok tt, with_entries db new) /\
    map en_document new =
      flat_map (fun s => if String.eqb (Py.strip (seg_text s)) "" then []
                         else Chunker.chunk (seg_text s) chunk_size chunk_overlap) segs /\
    List.Forall (fun e => md_video_id (en_metadata e) = Some v /\
                          md_source (en_metadata e) = "video_transcript" /\
                          en_embedding e = embed (world c) (en_document e)) new.
Proof.
  revert db; induction segs as [|s segs IH]; intros db; simpl.
  - exists []. unfold ret, with_entries. split; [|auto].
    rewrite app_nil_r, N.add_0_r. destruct db; reflexivity.
  - unfold bind at 1.
    destruct (String.eqb (Py.strip (seg_text s)) "").
    + unfold ret at 1. destruct (IH db) as (new & Hrun & Hdoc & Hall).
      exists new. rewrite Hrun. auto.
    + destruct (add_chunks_entries v s 0 (Chunker.chunk (seg_text s) chunk_size chunk_overlap) c db)
        as (new1 & Hrun1 & Hdoc1 & Hall1).
      rewrite Hrun1. destruct (IH (with_entries db new1)) as (new2 & Hrun2 & Hdoc2 & Hall2).
      exists (new1 ++ new2)%list. rewrite Hrun2, with_entries_app, map_app, Hdoc1, Hdoc2.
      split; [reflexivity|]. split; [reflexivity|]. apply Forall_app; auto.
Qed.

Lemma add_document_chunks (chunks : list string) (c : Ctx) (db : DB) :
  exists new,
    fold_right (fun ch k => w <- ask_world ;; collection_add (embed w ch) ch document_meta ;;; k)
      (ret tt) chunks c db = (Ok tt, with_entries db new) /\
    map en_document new = chunks /\
    List.Forall (fun e => en_metadata e = document_meta /\
                          en_embedding e = embed (world c) (en_document e)) new.
Proof.
  revert db; induction chunks as [|ch rest IH]; intros db; simpl.
  - exists []. unfold ret, with_entries. split; [|auto].
    rewrite app_nil_r, N.add_0_r. destruct db; reflexivity.
  - unfold bind at 1, ask_world. unfold collection_add; unfold_M. simpl.
    set (e := mkEntry (next_id db) (embed (world c) ch) ch document_meta).
    destruct (IH (with_entries db [e])) as (new & Hrun & Hdoc & Hall).
    exists (e :: new).
    split; [change (e :: new) with ([e] ++ new)%list; rewrite <- with_entries_app; exact Hrun|].
    split; [simpl; congruence|].
    constructor; [simpl; auto|exact Hall].
Qed.

Lemma filter_where_app_untagged (v : oid) (s new : list Entry)
    (H : List.Forall (fun e => md_video_id (en_metadata e) = None) new) :
  List.filter (where_ok (Some v)) (s ++ new) = List.filter (where_ok (Some v)) s.
Proof.
  rewrite List.filter_app. replace (List.filter (where_ok (Some v)) new) with (@nil Entry).
  - apply app_nil_r.
  - induction H as [|e new He H IH]; simpl; [reflexivity|].
    unfold where_ok at 1. rewrite He. exact IH.
Qed.

(** X14: [add_documents] appends the chunks of the documents with source "document" and no video id, so it changes no video-scoped search result. *)
Theorem add_documents_untagged (documents : list string) (c : Ctx) (db : DB) :
  exists new, add_documents documents c db = (Ok tt, with_entries db new) /\
    map en_document new =
      flat_map (fun d => Chunker.chunk d chunk_size chunk_overlap) documents /\
    List.Forall (fun e => md_source (en_metadata e) = "document" /\
                          md_video_id (en_metadata e) = None) new /\
    forall w q v k,
      search_video_content w (with_entries db new) q (Some v) k =
      search_video_content w db q (Some v) k.
Proof.
  assert (Hrun : exists new, add_documents documents c db = (Ok tt, with_entries db new) /\
    map en_document new =
      flat_map (fun d => Chunker.chunk d chunk_size chunk_overlap) documents /\
    List.Forall (fun e => en_metadata e = document_meta) new).
  { revert db; induction documents as [|d docs IH]; intros db; simpl.
    - exists []. unfold ret, with_entries. split; [|auto].
      rewrite app_nil_r, N.add_0_r. destruct db; reflexivity.
    - unfold bind at 1.
      destruct (add_document_chunks (Chunker.chunk d chunk_size chunk_overlap) c db)
        as (new1 & Hrun1 & Hdoc1 & Hall1).
      rewrite Hrun1. destruct (IH (with_entries db new1)) as (new2 & Hrun2 & Hdoc2 & Hall2).
      exists (new1 ++ new2)%list. rewrite Hrun2, with_entries_app, map_app, Hdoc1, Hdoc2.
      split; [reflexivity|]. split; [reflexivity|]. apply Forall_app; split; [|exact Hall2].
      eapply Forall_impl; [exact Hall1|]. intros e [He _]; exact He. }
  destruct Hrun as (new & Hrun & Hdoc & Hall). exists new.
  split; [exact Hrun|]. split; [exact Hdoc|].
  assert (Hnone : List.Forall (fun e => md_video_id (en_metadata e) = None) new).
  { eapply Forall_impl; [exact Hall|]. intros e He; rewrite He; reflexivity. }
  split.
  - eapply Forall_impl; [exact Hall|]. intros e He; rewrite He; auto.
  - intros w q v k. unfold search_video_content, chroma_query, with_entries; simpl.
    rewrite filter_where_app_untagged by exact Hnone. reflexivity.
Qed.

(** X15: A video uploaded through [upload_resource] with the broker up is queued as PENDING, but the queued task fails with "Video document not found" and the resource stays PENDING. *)
Theorem queued_resource_video_not_processed (w : World) (db : DB) (course : oid)
    (module : option oid) (title ct url st : string)
    (Hb : broker_up w = true) (Hct : String.prefix "video/" ct = true)
    (Hst : st = "drive" \/ st = "local") (Hfresh : videos db !! next_id db = None) :
  let '(r1, db1) := run_route (upload_resource course module title ct url st) w db in
  r1 = Ok (mkResourceUploadResponse (next_id db) title "video" "PENDING" 300) /\
  queue db1 = (queue db ++ [(next_id db, url)])%list /\
  let '(r2, db2) := run_task (process_video_task (next_id db) url) w db1 in
  r2 = Ok (TaskFailed (next_id db) "Video document not found") /\
  doc_field (resources db2) (next_id db) "status" = Some (VStr "PENDING") /\
  videos db2 = videos db.
Proof.
  assert (Ht : resource_type_of ct = "video") by (unfold resource_type_of; rewrite Hct; reflexivity).
  unfold upload_resource. rewrite Ht. cbn [is_document_type String.eqb].
  unfold dispatch_video_task; unfold_M; unfold_M.
  unfold coll, set_coll; simpl.
  destruct Hst as [-> | ->]; simpl; rewrite ?Hb; simpl;
  (split; [reflexivity|]; split; [reflexivity|]);
  unfold process_video_task, async_db_operation, update_video_status; unfold_M; unfold_M;
  unfold coll, set_coll; simpl; rewrite Hfresh; simpl; rewrite Hfresh; simpl;
  unfold doc_field; simplify_map_eq; auto.
Qed.

Section Preserves.

Variable (P : DB -> Prop).


Lemma preserves_ret {A} (a : A) : preserves P (ret a).
Proof. intros c db H; exact H. Qed.

Lemma preserves_raise {A} (e : exn) : preserves P (@raise A e).
Proof. intros c db H; exact H. Qed.

Lemma preserves_ask_world : preserves P ask_world.
Proof. intros c db H; exact H. Qed.

Lemma preserves_bind {A B} (m : M A) (f : A -> M B) :
  preserves P m -> (forall a, preserves P (f a)) -> preserves P (bind m f).
Proof.
  intros Hm Hf c db H. unfold bind. specialize (Hm c db H).
  destruct (m c db) as [[a|e] db']; simpl in *; auto. apply Hf; exact Hm.
Qed.

Lemma preserves_try {A} (m : M A) (h : exn -> M A) :
  preserves P m -> (forall e, preserves P (h e)) -> preserves P (try_except m h).
Proof.
  intros Hm Hh c db H. unfold try_except. specialize (Hm c db H).
  destruct (m c db) as [[a|e] db']; simpl in *; auto. apply Hh; exact Hm.
Qed.

End Preserves.

Lemma apply_update_other (d : Doc) (sets : list (string * Val)) (unsets : list string) (k : string)
    (Hs : k ∉ map fst sets) (Hu : k ∉ unsets) :
  apply_update d sets unsets !! k = d !! k.
Proof.
  unfold apply_update. revert d Hs.
  assert (Hun : forall d : Doc, foldl (fun d k => delete k d) d unsets !! k = d !! k).
  { induction unsets as [|k' unsets IH]; intros d; simpl; [reflexivity|].
    rewrite IH by set_solver. apply lookup_delete_ne. set_solver. }
  intros d Hs. rewrite Hun. clear Hun Hu.
  revert d; induction sets as [|[k' v'] sets IH]; intros d; simpl; [reflexivity|].
  rewrite IH by set_solver. apply lookup_insert_ne. set_solver.
Qed.


Lemma preserves_update_one (id : oid) (k : string) (val : Val) (name : string) (i : oid)
    (sets : list (string * Val)) (unsets : list string)
    (Hs : k ∉ map fst sets) (Hu : k ∉ unsets) :
  preserves (video_field id k val) (update_one name i sets unsets).
Proof.
  intros c db H. unfold update_one; unfold_M. unfold video_field, doc_field, coll, set_coll in *.
  destruct (String.eqb name "videos"); simpl;
    [destruct (videos db !! i) as [d|] eqn:Hd | destruct (resources db !! i)]; simpl; auto.
  destruct (decide (i = id)) as [->|Hne].
  - rewrite lookup_insert_eq. simpl. rewrite apply_update_other by assumption.
    rewrite Hd in H. exact H.
  - rewrite lookup_insert_ne by congruence. exact H.
Qed.

Lemma preserves_update_video_status (id : oid) (k : string) (val : Val) (i : oid) (st : string)
    (p : Z) (step : string) (eta : Z)
    (Hk : k ∉ ["status"; "progress"; "current_step"; "estimated_time_remaining"]) :
  preserves (video_field id k val) (update_video_status i st p step eta).
Proof.
  unfold update_video_status. destruct (String.eqb st "PROCESSING");
    apply preserves_update_one; simpl; set_solver.
Qed.

Lemma preserves_insert_transcript (id : oid) (k : string) (val : Val) key owner segs wc lang conf :
  preserves (video_field id k val) (insert_transcript key owner segs wc lang conf).
Proof. intros c db H. exact H. Qed.

Lemma preserves_add_video_content_to_rag (id : oid) (k : string) (val : Val) v tid segs :
  preserves (video_field id k val) (add_video_content_to_rag v tid segs).
Proof.
  intros c db H. unfold add_video_content_to_rag; unfold_M.
  destruct (embed_ok (world c)); [|exact H].
  destruct (add_video_transcript_to_rag_run v segs c db) as (new & -> & _). exact H.
Qed.

Lemma preserves_process_video_for_transcription (id : oid) (k : string) (val : Val) p :
  preserves (video_field id k val) (process_video_for_transcription p).
Proof.
  intros c db H. unfold process_video_for_transcription; unfold_M.
  destruct (negb (file_exists (world c) p)); [exact H|].
  destruct (negb (audio_converted (world c) p)); exact H.
Qed.

Lemma preserves_local_content (P : DB -> Prop) (t : Transcription) :
  preserves P (local_content t).
Proof.
  intros c db H. unfold local_content, ret, raise.
  destruct t; repeat case_match; exact H.
Qed.

Ltac preserves_steps :=
  repeat first
    [ apply preserves_update_video_status; simpl; set_solver
    | apply preserves_update_one; simpl; set_solver
    | apply preserves_insert_transcript
    | apply preserves_add_video_content_to_rag
    | apply preserves_process_video_for_transcription
    | apply preserves_local_content
    | apply preserves_ret
    | apply preserves_raise
    | apply preserves_ask_world
    | apply preserves_try; [|intros]
    | apply preserves_bind; [|intros]
    | match goal with
      | |- preserves _ (if ?b then _ else _) => destruct b
      end ].

Lemma sync_upload_keeps_field (id : oid) (k : string) (val : Val) (url st : string) (title : string)
    (Hk : k ∉ ["status"; "progress"; "current_step"; "estimated_time_remaining";
               "duration_seconds"; "processed_at"; "error_message"]) :
  preserves (video_field id k val)
    (try_except
       (video_sync_body "videos" "video_id" id url st ;;;
        ret (mkVideoUploadResponse id title "COMPLETE" 0))
       (sync_failure "videos" "Video processing failed: " id)).
Proof.
  unfold video_sync_body, sync_failure. preserves_steps.
Qed.

Lemma in_module_video_ids (db : DB) (m id : oid) (d : Doc)
    (Hv : videos db !! id = Some d) (Hm : d !! "module_id" = Some (VId m)) :
  In id (module_video_ids db m).
Proof.
  rewrite module_video_ids_videos. apply in_map_iff. exists (id, d). split; [reflexivity|].
  apply filter_In. split.
  - apply list_elem_of_In, elem_of_map_to_list. exact Hv.
  - unfold in_module. simpl. rewrite Hm. apply N.eqb_refl.
Qed.

Lemma bind_run {A B} (m : M A) (f : A -> M B) (c : Ctx) (db : DB) (a : A) (db1 : DB) :
  m c db = (Ok a, db1) -> bind m f c db = f a c db1.
Proof. intros H. unfold bind. rewrite H. reflexivity. Qed.

Lemma try_ignore_ok (m : M unit) (c : Ctx) (db : DB) :
  exists db', try_except m (fun _ => ret tt) c db = (Ok tt, db').
Proof.
  unfold try_except. destruct (m c db) as [[[]|e] db']; eexists; reflexivity.
Qed.

Lemma sync_upload_result (id : oid) (url st title : string) (c : Ctx) (db : DB) :
  match fst (try_except
               (video_sync_body "videos" "video_id" id url st ;;;
                ret (mkVideoUploadResponse id title "COMPLETE" 0))
               (sync_failure "videos" "Video processing failed: " id) c db) with
  | Ok resp => resp = mkVideoUploadResponse id title "COMPLETE" 0
  | Err e => exists m, e = HTTPException 500 m
  end.
Proof.
  unfold try_except at 1, bind at 1.
  destruct (video_sync_body "videos" "video_id" id url st c db) as [[[]|e] db1]; simpl;
    [reflexivity|].
  unfold sync_failure, bind at 1.
  destruct (try_ignore_ok
              (update_video_status id "FAILED" 100 (exn_str e) 0 ;;;
               update_one "videos" id [("error_message", VStr (exn_str e))] []) c db1)
    as [db2 ->]; simpl; eauto.
Qed.

Lemma store_video_file_outcome (file : UploadFile) (up : bool) (c : Ctx) (db : DB) :
  snd (store_video_file file up c db) = db /\
  match fst (store_video_file file up c db) with
  | Ok _ => True
  | Err e => exists code msg, e = HTTPException code msg /\ In code [415; 413; 500]%Z
  end.
Proof.
  unfold store_video_file, raise, ret.
  destruct (negb _); [|destruct (file_save_error file); [|destruct (MAX_FILE_SIZE <? file_size file)%N;
    [|destruct up; [destruct (Py.truthy (drive_file_id file))|]]]];
    cbn [fst snd]; split; auto; (eexists _, _; split; [reflexivity | simpl; tauto]).
Qed.

(** X16: A module upload by the course owner with role FACULTY first validates and stores the file (steps 2 and 3): a 415, 413 or 500 there writes nothing; once the file is stored, the upload always leaves a video record in the module and course, whether or not processing succeeds; success returns that id, a failure is a 500. *)
Theorem module_upload_listed (cat : Catalog) (u : User) (s : string) (mid : oid) (title : string)
    (up : bool) (file : UploadFile) (w : World) (db : DB) (md : ModuleDoc) (creator : oid)
    (Hs : Oid.object_id s = Some (Some mid))
    (Hm : modules cat !! mid = Some md) (Hc : course_rooms cat !! mod_course md = Some creator)
    (Hf : user_role u = "FACULTY") (Ho : creator = user_id u) :
  let '(r, db') := run_route (upload_video_sync_to_module cat u s title up file) w db in
  match fst (store_video_file file up (mkCtx w true) db) with
  | Err e =>
      r = Err e /\ db' = db /\
      exists code msg, e = HTTPException code msg /\ In code [415; 413; 500]%Z
  | Ok _ =>
      In (next_id db) (module_video_ids db' mid) /\
      doc_field (videos db') (next_id db) "course_id" = Some (VId (mod_course md)) /\
      match r with
      | Ok resp => videoId resp = next_id db
      | Err e => exists m, e = HTTPException 500 m
      end
  end.
Proof.
  assert (Hf' : String.eqb (user_role u) "FACULTY" = true) by (rewrite Hf; reflexivity).
  unfold upload_video_sync_to_module, find_module. rewrite Hs; cbn [option_map]. rewrite Hm; cbn [option_map].
  rewrite Hc, Hf', Ho, N.eqb_refl. cbn [negb orb].
  unfold run_route. set (c := mkCtx w true).
  pose proof (store_video_file_outcome file up c db) as [Hdb Hout].
  destruct (store_video_file file up c db) as [[[url st]|e] db0] eqn:Hst;
    cbn [fst snd] in Hdb, Hout |- *; subst db0.
  2:{ unfold bind at 1. rewrite Hst. auto. }
  rewrite (bind_run _ _ c db (url, st) db Hst). cbv beta. cbn [fst snd].
  unfold upload_video_sync.
  set (db1 := mkDB (<[next_id db := <["_id" := VId (next_id db)]>
                      (new_video_doc (mod_course md) (Some mid) title url st "PROCESSING")]>
                      (videos db))
                   (resources db) (transcripts db) (summaries db) (quizzes db) (store db)
                   (queue db) (writes db) (next_id db + 1)).
  rewrite (bind_run _ _ _ db (next_id db) db1) by reflexivity. cbv beta.
  pose proof (sync_upload_result (next_id db) url st title c db1) as Hr.
  assert (Hmod : video_field (next_id db) "module_id" (VId mid) db1).
  { unfold video_field, doc_field, db1; simpl. rewrite lookup_insert_eq. reflexivity. }
  assert (Hcrs : video_field (next_id db) "course_id" (VId (mod_course md)) db1).
  { unfold video_field, doc_field, db1; simpl. rewrite lookup_insert_eq. reflexivity. }
  apply (sync_upload_keeps_field (next_id db) "module_id" (VId mid) url st title
           ltac:(set_solver) c db1) in Hmod.
  apply (sync_upload_keeps_field (next_id db) "course_id" (VId (mod_course md)) url st title
           ltac:(set_solver) c db1) in Hcrs.
  destruct (try_except _ _ c db1) as [r db'] eqn:Hrun. simpl in Hr, Hmod, Hcrs.
  unfold video_field, doc_field in Hmod, Hcrs.
  destruct (videos db' !! next_id db) as [d|] eqn:Hd; [|discriminate]. simpl in Hmod.
  split; [eapply in_module_video_ids; eauto|]. split; [unfold doc_field; rewrite Hd; exact Hcrs|].
  destruct r as [resp|e]; [rewrite Hr; reflexivity | exact Hr].
Qed.

(** X17: A module upload by a user who is not FACULTY or not the course creator fails with 403 and writes nothing. *)
Theorem module_upload_denied (cat : Catalog) (u : User) (s : string) (mid : oid) (title : string)
    (up : bool) (file : UploadFile) (w : World) (db : DB) (md : ModuleDoc) (creator : oid)
    (Hs : Oid.object_id s = Some (Some mid))
    (Hm : modules cat !! mid = Some md) (Hc : course_rooms cat !! mod_course md = Some creator)
    (Hn : user_role u <> "FACULTY" \/ creator <> user_id u) :
  run_route (upload_video_sync_to_module cat u s title up file) w db =
  (Err (HTTPException 403 "Only faculty who created the course can upload videos to modules."), db).
Proof.
  unfold upload_video_sync_to_module, find_module. rewrite Hs; cbn [option_map]. rewrite Hm; cbn [option_map].
  rewrite Hc.
  assert (Hb : negb (String.eqb (user_role u) "FACULTY") || negb (N.eqb creator (user_id u)) = true).
  { destruct Hn as [Hn|Hn].
    - apply String.eqb_neq in Hn. rewrite Hn. reflexivity.
    - apply N.eqb_neq in Hn. rewrite Hn. apply orb_true_r. }
  rewrite Hb. reflexivity.
Qed.

(** X13: [add_video_transcript_to_rag] only appends to the collection: the new documents are the chunks of the non-blank segments, in order, each tagged with the video id, the source "video_transcript" and its embedding. *)
Theorem add_video_transcript_to_rag_entries (v : oid) (segs : list Segment) (c : Ctx) (db : DB) :
  exists new, add_video_transcript_to_rag v segs c db = (Ok tt, with_entries db new) /\
    map en_document new =
      flat_map (fun s => if String.eqb (Py.strip (seg_text s)) "" then []
                         else Chunker.chunk (seg_text s) chunk_size chunk_overlap) segs /\
    List.Forall (fun e => md_video_id (en_metadata e) = Some v /\
                          md_source (en_metadata e) = "video_transcript" /\
                          en_embedding e = embed (world c) (en_document e)) new.
Proof. apply add_video_transcript_to_rag_run. Qed.

(** ** Witnesses *)

Lemma status_after_update_witness :
  let db1 := snd (run_task (update_video_status 0 "FAILED" 100 "Failed" 0) (demo_world true)
                    course_video_db) in
  fst (run_route (get_video_processing_status demo_catalog student 0) (demo_world true) db1) =
  Ok (mkVideoProcessingStatus 0 (VStr "FAILED") None None None
        (Some (VStr "Processing failed"))).
Proof.
  refine (status_after_update demo_catalog student (demo_world true) course_video_db 0
            {[ "course_id" := VId 7; "module_id" := VId 5; "title" := VStr "Lecture 1";
               "status" := VStr "COMPLETE" ]} 7 100 "FAILED" 100 "Failed" 0 _ _ _ _);
    reflexivity.
Defined.

Lemma course_history_every_user_witness :
  exists h,
    get_course_modules_chat_history
      (set_module_chats [mkChat 5 100 "FACULTY" "q" "a"] demo_catalog) student 7 = Ok h /\
    forall ch, In ch (module_chats (set_module_chats [mkChat 5 100 "FACULTY" "q" "a"] demo_catalog)) ->
      (In (history_entry (set_module_chats [mkChat 5 100 "FACULTY" "q" "a"] demo_catalog) ch) h <->
       exists md, modules (set_module_chats [mkChat 5 100 "FACULTY" "q" "a"] demo_catalog)
                    !! ch_module ch = Some md /\ mod_course md = 7%N).
Proof.
  eexists. split; [vm_compute; reflexivity|].
  apply (course_history_every_user _ student 7). vm_compute. reflexivity.
Defined.

Lemma queued_resource_video_not_processed_witness :
  let '(r1, db1) := run_route (upload_resource 7 None "Intro" "video/mp4"
                                 "uploads/videos/lecture.mp4" "local") (demo_world true) empty_db in
  r1 = Ok (mkResourceUploadResponse (next_id empty_db) "Intro" "video" "PENDING" 300) /\
  queue db1 = (queue empty_db ++ [(next_id empty_db, "uploads/videos/lecture.mp4")])%list /\
  let '(r2, db2) := run_task (process_video_task (next_id empty_db) "uploads/videos/lecture.mp4")
                      (demo_world true) db1 in
  r2 = Ok (TaskFailed (next_id empty_db) "Video document not found") /\
  doc_field (resources db2) (next_id empty_db) "status" = Some (VStr "PENDING") /\
  videos db2 = videos empty_db.
Proof.
  apply queued_resource_video_not_processed;
    [reflexivity | reflexivity | right; reflexivity | reflexivity].
Defined.

Lemma module_chat_without_generator_witness :
  let '(r, cat') := module_specific_chat (mkServices false true None (fun p => Ok p))
                      (demo_world true) empty_db demo_catalog student module5_str
                      "What is a vector?" in
  (exists msg, r = Err (Exception msg)) /\
  exists e, module_chats cat' =
    (module_chats demo_catalog ++
       [mkChat 5 (user_id student) (user_role student) "What is a vector?"
          (chat_fallback (mkModuleDoc 7 "Vectors" "Linear algebra basics") "What is a vector?" e)])%list.
Proof.
  apply (module_chat_without_generator _ _ _ demo_catalog student module5_str 5 "What is a vector?"
           (mkModuleDoc 7 "Vectors" "Linear algebra basics") 100);
    [vm_compute; reflexivity | reflexivity | reflexivity | reflexivity | discriminate
    | left; reflexivity].
Defined.

Lemma module_upload_listed_witness :
  let '(r, db') := run_route (upload_video_sync_to_module demo_catalog faculty module5_str "Intro"
                                false demo_upload) (demo_world true) empty_db in
  match fst (store_video_file demo_upload false (mkCtx (demo_world true) true) empty_db) with
  | Err e =>
      r = Err e /\ db' = empty_db /\
      exists code msg, e = HTTPException code msg /\ In code [415; 413; 500]%Z
  | Ok _ =>
      In (next_id empty_db) (module_video_ids db' 5) /\
      doc_field (videos db') (next_id empty_db) "course_id" = Some (VId 7) /\
      match r with
      | Ok resp => videoId resp = next_id empty_db
      | Err e => exists m, e = HTTPException 500 m
      end
  end.
Proof.
  apply (module_upload_listed demo_catalog faculty module5_str 5 "Intro" false demo_upload
           (demo_world true) empty_db (mkModuleDoc 7 "Vectors" "Linear algebra basics") 100);
    [vm_compute | ..]; reflexivity.
Defined.

Lemma module_upload_denied_witness :
  run_route (upload_video_sync_to_module demo_catalog student module5_str "Intro"
               false demo_upload) (demo_world true) empty_db =
  (Err (HTTPException 403 "Only faculty who created the course can upload videos to modules."),
   empty_db).
Proof.
  apply (module_upload_denied demo_catalog student module5_str 5 "Intro" false demo_upload
           (demo_world true) empty_db (mkModuleDoc 7 "Vectors" "Linear algebra basics") 100);
    [vm_compute; reflexivity | reflexivity | reflexivity | left; discriminate].
Defined.

Lemma all_modules_history_own_chats_witness :
  In ("Vectors", mkChat 5 200 "STUDENT" "q" "a")
     (get_all_modules_chat_history
        (set_module_chats [mkChat 5 200 "STUDENT" "q" "a"] demo_catalog) student) /\
  (In (mkChat 5 200 "STUDENT" "q" "a")
      (module_chats (set_module_chats [mkChat 5 200 "STUDENT" "q" "a"] demo_catalog)) /\
   ch_user (mkChat 5 200 "STUDENT" "q" "a") = user_id student /\
   "Vectors" = module_name_of (set_module_chats [mkChat 5 200 "STUDENT" "q" "a"] demo_catalog)
                 (ch_module (mkChat 5 200 "STUDENT" "q" "a"))).
Proof.
  assert (H : In ("Vectors", mkChat 5 200 "STUDENT" "q" "a")
                (get_all_modules_chat_history
                   (set_module_chats [mkChat 5 200 "STUDENT" "q" "a"] demo_catalog) student))
    by (vm_compute; left; reflexivity).
  split; [exact H|].
  exact (all_modules_history_own_chats _ student ("Vectors", mkChat 5 200 "STUDENT" "q" "a") H).
Defined.
